(** * The reactive task store of the Angular 16 task manager

    A shallow embedding of [src/app/models/task.model.ts] and
    [src/app/services/task.service.ts].  The two signals of [TaskService]
    ([_tasks] and [_filter]) become the two fields of a [Store] record that
    every operation takes and returns; the computed signals become pure
    functions of the store.  The two reads of the environment made by the
    service, [crypto.randomUUID()] and the clock ([new Date()],
    [Date.now()]), become explicit arguments. *)

From Stdlib Require Import List String Ascii ZArith Bool Arith Lia.
Import ListNotations.

Local Open Scope string_scope.

(** ** Data model (task.model.ts) *)

(** [enum TaskPriority { LOW = 'low', MEDIUM = 'medium', HIGH = 'high' }] *)
Inductive TaskPriority : Type := LOW | MEDIUM | HIGH.

(** The string each enum member stands for at run time. *)
Definition TaskPriority_value (p : TaskPriority) : string :=
  match p with
  | LOW => "low"
  | MEDIUM => "medium"
  | HIGH => "high"
  end.

(** [===] on two enum members is [===] on their strings. *)
Definition TaskPriority_eqb (p q : TaskPriority) : bool :=
  String.eqb (TaskPriority_value p) (TaskPriority_value q).

(** A [Date] is its time value: milliseconds since the epoch. *)
Definition Date : Type := Z.

(** [interface Task]; the optional [dueDate?] reads as [undefined] ([None])
    when it is missing. *)
Module Task.
Record t : Type := mk {
  id : string;
  title : string;
  description : string;
  completed : bool;
  priority : TaskPriority;
  dueDate : option Date;
  createdAt : Date
}.
End Task.

(** [interface TaskFilter] *)
Module TaskFilter.
Record t : Type := mk {
  showCompleted : bool;
  priority : option TaskPriority;
  searchTerm : string
}.
End TaskFilter.

(** [Omit<Task, 'id' | 'createdAt'>], the argument of [addTask]. *)
Module TaskDraft.
Record t : Type := mk {
  title : string;
  description : string;
  completed : bool;
  priority : TaskPriority;
  dueDate : option Date
}.
End TaskDraft.

(** [Partial<Task>]: every key may be missing ([None]) or carry a value
    ([Some v]).  A key of an optional field may also be present with the
    value [undefined], which is [Some None].  The value of a key of a
    required field has the type the field declares, as the type [Task[]] of
    the signal asks of what [updateTask] writes back. *)
Module PartialTask.
Record t : Type := mk {
  id : option string;
  title : option string;
  description : option string;
  completed : option bool;
  priority : option TaskPriority;
  dueDate : option (option Date);
  createdAt : option Date
}.

(** The object literal [{}]. *)
Definition empty : t := mk None None None None None None None.
End PartialTask.

(** [Partial<TaskFilter>], with the same reading of keys. *)
Module PartialFilter.
Record t : Type := mk {
  showCompleted : option bool;
  priority : option (option TaskPriority);
  searchTerm : option string
}.

Definition empty : t := mk None None None.
End PartialFilter.

(** ** Object spread *)

(** One key of [{ ...prior, ...supplied }]: the later object wins where it
    has the key, otherwise the earlier value stays. *)
Definition spread {A : Type} (prior : A) (supplied : option A) : A :=
  match supplied with
  | Some v => v
  | None => prior
  end.

(** [{ ...task, ...updates }] *)
Definition spread_task (task : Task.t) (updates : PartialTask.t) : Task.t :=
  {| Task.id := spread (Task.id task) (PartialTask.id updates);
     Task.title := spread (Task.title task) (PartialTask.title updates);
     Task.description :=
       spread (Task.description task) (PartialTask.description updates);
     Task.completed :=
       spread (Task.completed task) (PartialTask.completed updates);
     Task.priority := spread (Task.priority task) (PartialTask.priority updates);
     Task.dueDate := spread (Task.dueDate task) (PartialTask.dueDate updates);
     Task.createdAt :=
       spread (Task.createdAt task) (PartialTask.createdAt updates) |}.

(** [{ ...current, ...filter }] *)
Definition spread_filter (current : TaskFilter.t) (filter : PartialFilter.t)
  : TaskFilter.t :=
  {| TaskFilter.showCompleted :=
       spread (TaskFilter.showCompleted current)
              (PartialFilter.showCompleted filter);
     TaskFilter.priority :=
       spread (TaskFilter.priority current) (PartialFilter.priority filter);
     TaskFilter.searchTerm :=
       spread (TaskFilter.searchTerm current)
              (PartialFilter.searchTerm filter) |}.

(** ** Built-ins the filter closure calls *)

(** Truthiness of a string: only [''] is falsy. *)
Definition truthy_string (s : string) : bool := negb (String.eqb s "").

(** Truthiness of [filter.priority]: [undefined] is falsy, an enum member is
    as truthy as its string. *)
Definition truthy_priority (p : option TaskPriority) : bool :=
  match p with
  | None => false
  | Some v => truthy_string (TaskPriority_value v)
  end.

(** [s.includes(sub)]: [sub] starts at some position of [s]. *)
Fixpoint includes (s sub : string) : bool :=
  String.prefix sub s ||
  match s with
  | EmptyString => false
  | String _ rest => includes rest sub
  end.

(** ** The store (task.service.ts) *)

Record Store : Type := mkStore {
  _tasks : list Task.t;
  _filter : TaskFilter.t
}.

Definition day_ms : Z := 24 * 60 * 60 * 1000.

(** The field initialisers of [TaskService].  [t0], [t1] and [t2] are the
    three clock reads, in program order: [new Date()], [Date.now()] and
    [Date.now()]. *)
Definition init (t0 t1 t2 : Date) : Store :=
  {| _tasks :=
       [ {| Task.id := "1";
            Task.title := "Learn Angular 16 Signals";
            Task.description := "Understand the new signals API";
            Task.completed := false;
            Task.priority := HIGH;
            Task.createdAt := t0;
            Task.dueDate := Some (t1 + 7 * day_ms)%Z |};
         {| Task.id := "2";
            Task.title := "Implement Standalone Components";
            Task.description := "Create components without NgModule";
            Task.completed := true;
            Task.priority := MEDIUM;
            Task.createdAt := (t2 - day_ms)%Z;
            Task.dueDate := None |} ];
     _filter :=
       {| TaskFilter.showCompleted := true;
          TaskFilter.priority := None;
          TaskFilter.searchTerm := "" |} |}.

(** *** Computed signals *)

Definition tasks (s : Store) : list Task.t := _tasks s.

Section FilteredView.

(** [String.prototype.toLowerCase] is the platform's; the view is defined
    over any such function. *)
Variable toLowerCase : string -> string.

(** The closure handed to [tasks.filter] inside [filteredTasks].  In
    [matchesPriority] the right operand of [||] is only reached with a
    truthy [filter.priority]; against [undefined] the [===] would be
    [false]. *)
Definition filter_closure (filter : TaskFilter.t) (task : Task.t) : bool :=
  let matchesCompleted :=
    TaskFilter.showCompleted filter || negb (Task.completed task) in
  let matchesPriority :=
    negb (truthy_priority (TaskFilter.priority filter)) ||
    match TaskFilter.priority filter with
    | Some p => TaskPriority_eqb (Task.priority task) p
    | None => false
    end in
  let matchesSearch :=
    negb (truthy_string (TaskFilter.searchTerm filter)) ||
    includes (toLowerCase (Task.title task))
             (toLowerCase (TaskFilter.searchTerm filter)) ||
    includes (toLowerCase (Task.description task))
             (toLowerCase (TaskFilter.searchTerm filter)) in
  matchesCompleted && matchesPriority && matchesSearch.

Definition filteredTasks (s : Store) : list Task.t :=
  let tasks := _tasks s in
  let filter := _filter s in
  List.filter (filter_closure filter) tasks.

End FilteredView.

Definition completedCount (s : Store) : nat :=
  List.length (List.filter (fun task => Task.completed task) (_tasks s)).

Definition totalCount (s : Store) : nat := List.length (_tasks s).

(** *** Operations *)

(** [addTask(task)]; [uuid] is what [crypto.randomUUID()] returns during the
    call and [now] is the time value of [new Date()]. *)
Definition addTask (uuid : string) (now : Date) (task : TaskDraft.t)
                   (s : Store) : Store :=
  let newTask :=
    {| Task.title := TaskDraft.title task;
       Task.description := TaskDraft.description task;
       Task.completed := TaskDraft.completed task;
       Task.priority := TaskDraft.priority task;
       Task.dueDate := TaskDraft.dueDate task;
       Task.id := uuid;
       Task.createdAt := now |} in
  {| _tasks := (_tasks s ++ [newTask])%list; _filter := _filter s |}.

Definition updateTask (id : string) (updates : PartialTask.t) (s : Store)
  : Store :=
  {| _tasks :=
       List.map (fun task =>
                   if String.eqb (Task.id task) id
                   then spread_task task updates
                   else task)
                (_tasks s);
     _filter := _filter s |}.

Definition deleteTask (id : string) (s : Store) : Store :=
  {| _tasks :=
       List.filter (fun task => negb (String.eqb (Task.id task) id)) (_tasks s);
     _filter := _filter s |}.

(** [{ ...task, completed: !task.completed }] *)
Definition flip_completed (task : Task.t) : Task.t :=
  {| Task.id := Task.id task;
     Task.title := Task.title task;
     Task.description := Task.description task;
     Task.completed := negb (Task.completed task);
     Task.priority := Task.priority task;
     Task.dueDate := Task.dueDate task;
     Task.createdAt := Task.createdAt task |}.

Definition toggleTask (id : string) (s : Store) : Store :=
  {| _tasks :=
       List.map (fun task =>
                   if String.eqb (Task.id task) id
                   then flip_completed task
                   else task)
                (_tasks s);
     _filter := _filter s |}.

Definition updateFilter (filter : PartialFilter.t) (s : Store) : Store :=
  {| _tasks := _tasks s; _filter := spread_filter (_filter s) filter |}.

Definition getFilter (s : Store) : TaskFilter.t := _filter s.

(** *** The caller of [updateFilter] (task-list.component.ts) *)

Module TaskListComponent.
(** The three filter controls; [selectedPriority] is
    [TaskPriority | null], with [null] as [None]. *)
Record t : Type := mk {
  searchTerm : string;
  showCompleted : bool;
  selectedPriority : option TaskPriority
}.

(** [this.selectedPriority || undefined] *)
Definition or_undefined (p : option TaskPriority) : option TaskPriority :=
  if truthy_priority p then p else None.

(** The private [updateFilter()]: all three keys are always present. *)
Definition updateFilter (c : t) (s : Store) : Store :=
  updateFilter
    {| PartialFilter.searchTerm := Some (searchTerm c);
       PartialFilter.showCompleted := Some (showCompleted c);
       PartialFilter.priority := Some (or_undefined (selectedPriority c)) |}
    s.
End TaskListComponent.

(** ** Runs of the store *)

(** One call on the public interface of the service. *)
Inductive Op : Type :=
| AddTask (uuid : string) (now : Date) (task : TaskDraft.t)
| UpdateTask (id : string) (updates : PartialTask.t)
| DeleteTask (id : string)
| ToggleTask (id : string)
| UpdateFilter (filter : PartialFilter.t).

Definition step (s : Store) (op : Op) : Store :=
  match op with
  | AddTask uuid now task => addTask uuid now task s
  | UpdateTask id updates => updateTask id updates s
  | DeleteTask id => deleteTask id s
  | ToggleTask id => toggleTask id s
  | UpdateFilter filter => updateFilter filter s
  end.

Definition run (s : Store) (ops : list Op) : Store := fold_left step ops s.

(** One [addTask] call together with what the environment answers in it. *)
Record AddCall : Type := mkAddCall {
  call_uuid : string;
  call_now : Date;
  call_task : TaskDraft.t
}.

Definition add_all (calls : list AddCall) (s : Store) : Store :=
  fold_left (fun st c => addTask (call_uuid c) (call_now c) (call_task c) st)
            calls s.

Definition update_filter_all (calls : list PartialFilter.t) (s : Store)
  : Store :=
  fold_left (fun st filter => updateFilter filter st) calls s.

(** ** Vocabulary of the properties *)

Definition ids (s : Store) : list string := List.map Task.id (tasks s).

(** No two tasks of the sequence share an id. *)
Definition unique_ids (s : Store) : Prop := NoDup (ids s).

Definition holds_id (id : string) (s : Store) : bool :=
  existsb (String.eqb id) (ids s).

(** The calls under which ids stay apart: an [addTask] whose generated id
    is not held yet, and every [updateTask] except the one that gives a
    held task an id that another task holds (its partial record has an
    [id] key whose value differs from the id of the call and is held,
    while the id of the call is held too). *)
Definition keeps_ids_apart (s : Store) (op : Op) : bool :=
  match op with
  | AddTask uuid _ _ => negb (holds_id uuid s)
  | UpdateTask id updates =>
      match PartialTask.id updates with
      | None => true
      | Some id' =>
          String.eqb id' id || negb (holds_id id s) || negb (holds_id id' s)
      end
  | DeleteTask _ | ToggleTask _ | UpdateFilter _ => true
  end.

Fixpoint admissible (s : Store) (ops : list Op) : bool :=
  match ops with
  | [] => true
  | op :: rest => keeps_ids_apart s op && admissible (step s op) rest
  end.

(** [r] is [l] with exactly the elements satisfying [P] kept, in the order
    they have in [l]. *)
Inductive kept_in_order {A : Type} (P : A -> Prop) : list A -> list A -> Prop :=
| kept_nil : kept_in_order P [] []
| kept_keep x l r :
    P x -> kept_in_order P l r -> kept_in_order P (x :: l) (x :: r)
| kept_drop x l r :
    ~ P x -> kept_in_order P l r -> kept_in_order P (x :: l) r.

(** [sub] occurs in [s] as a substring. *)
Definition contains (s sub : string) : Prop :=
  exists pre post, s = pre ++ sub ++ post.

Section FilterPredicates.

Variable fold_case : string -> string.

(** The three clauses of the filtered view, in the words of the
    specification. *)
Definition matchesCompleted (filter : TaskFilter.t) (task : Task.t) : Prop :=
  TaskFilter.showCompleted filter = true \/ Task.completed task <> true.

Definition matchesPriority (filter : TaskFilter.t) (task : Task.t) : Prop :=
  TaskFilter.priority filter = None \/
  TaskFilter.priority filter = Some (Task.priority task).

Definition matchesSearch (filter : TaskFilter.t) (task : Task.t) : Prop :=
  TaskFilter.searchTerm filter = "" \/
  contains (fold_case (Task.title task))
           (fold_case (TaskFilter.searchTerm filter)) \/
  contains (fold_case (Task.description task))
           (fold_case (TaskFilter.searchTerm filter)).

Definition passes (filter : TaskFilter.t) (task : Task.t) : Prop :=
  matchesCompleted filter task /\
  matchesPriority filter task /\
  matchesSearch filter task.

End FilterPredicates.

(** An instance of [toLowerCase] for running the view: the A-Z range of
    the real one. *)
Definition lower_ascii (c : ascii) : ascii :=
  let n := nat_of_ascii c in
  if ((65 <=? n) && (n <=? 90))%nat then ascii_of_nat (n + 32)%nat else c.

Fixpoint toLowerCase_ascii (s : string) : string :=
  match s with
  | EmptyString => EmptyString
  | String c rest => String (lower_ascii c) (toLowerCase_ascii rest)
  end.

(** ** Concrete values used in the examples *)

Definition seed : Store := init 1000%Z 1000%Z 1000%Z.

Definition only_id (id : string) : PartialTask.t :=
  {| PartialTask.id := Some id;
     PartialTask.title := None;
     PartialTask.description := None;
     PartialTask.completed := None;
     PartialTask.priority := None;
     PartialTask.dueDate := None;
     PartialTask.createdAt := None |}.

Definition only_title (title : string) : PartialTask.t :=
  {| PartialTask.id := None;
     PartialTask.title := Some title;
     PartialTask.description := None;
     PartialTask.completed := None;
     PartialTask.priority := None;
     PartialTask.dueDate := None;
     PartialTask.createdAt := None |}.

Definition only_completed (b : bool) : PartialTask.t :=
  {| PartialTask.id := None;
     PartialTask.title := None;
     PartialTask.description := None;
     PartialTask.completed := Some b;
     PartialTask.priority := None;
     PartialTask.dueDate := None;
     PartialTask.createdAt := None |}.

Definition id_and_createdAt (id : string) (createdAt : Date) : PartialTask.t :=
  {| PartialTask.id := Some id;
     PartialTask.title := None;
     PartialTask.description := None;
     PartialTask.completed := None;
     PartialTask.priority := None;
     PartialTask.dueDate := None;
     PartialTask.createdAt := Some createdAt |}.

Definition draft_test : TaskDraft.t :=
  {| TaskDraft.title := "Test Task";
     TaskDraft.description := "Test Description";
     TaskDraft.completed := false;
     TaskDraft.priority := LOW;
     TaskDraft.dueDate := None |}.

(** The seed after [updateTask('1', { id: '2' })]: both tasks hold id
    ['2'], the first not completed, the second completed. *)
Definition seed_clash : Store := updateTask "1" (only_id "2") seed.

Definition only_showCompleted (b : bool) : PartialFilter.t :=
  {| PartialFilter.showCompleted := Some b;
     PartialFilter.priority := None;
     PartialFilter.searchTerm := None |}.

Definition only_priority (p : option TaskPriority) : PartialFilter.t :=
  {| PartialFilter.showCompleted := None;
     PartialFilter.priority := Some p;
     PartialFilter.searchTerm := None |}.

Definition only_searchTerm (term : string) : PartialFilter.t :=
  {| PartialFilter.showCompleted := None;
     PartialFilter.priority := None;
     PartialFilter.searchTerm := Some term |}.


Definition call_done : AddCall :=
  {| call_uuid := "a41e";
     call_now := 3000%Z;
     call_task :=
       {| TaskDraft.title := "Completed Task";
          TaskDraft.description := "";
          TaskDraft.completed := true;
          TaskDraft.priority := LOW;
          TaskDraft.dueDate := None |} |}.

(** ** The task item (task-item.component.ts) *)

Module TaskItemComponent.
(** [isOverdue()]; [now] is the time value of the [new Date()] it
    compares with.  A [Date] object is truthy, so [!this.task.dueDate]
    holds exactly for [undefined]; [>] on two dates compares their time
    values.  (A due date that is an Invalid Date has no time value in [Z]
    and is outside this model.) *)
Definition isOverdue (now : Date) (task : Task.t) : bool :=
  let no_dueDate :=
    match Task.dueDate task with
    | None => true
    | Some _ => false
    end in
  if no_dueDate || Task.completed task
  then false
  else match Task.dueDate task with
       | Some dueDate => (now >? dueDate)%Z
       | None => false
       end.
End TaskItemComponent.

(** ** The handlers of the task list (task-list.component.ts) *)

Module TaskList.

(** [currentFilter.priority || null] *)
Definition or_null (p : option TaskPriority) : option TaskPriority :=
  if truthy_priority p then p else None.

(** The constructor: the three controls start from the filter of the
    service. *)
Definition constructor (s : Store) : TaskListComponent.t :=
  let currentFilter := getFilter s in
  {| TaskListComponent.searchTerm := TaskFilter.searchTerm currentFilter;
     TaskListComponent.showCompleted :=
       TaskFilter.showCompleted currentFilter;
     TaskListComponent.selectedPriority :=
       or_null (TaskFilter.priority currentFilter) |}.

(** [onSearchChange(event)], with [value] for [event.target.value]. *)
Definition onSearchChange (value : string)
           (c : TaskListComponent.t) (s : Store)
  : TaskListComponent.t * Store :=
  let c' :=
    {| TaskListComponent.searchTerm := value;
       TaskListComponent.showCompleted := TaskListComponent.showCompleted c;
       TaskListComponent.selectedPriority :=
         TaskListComponent.selectedPriority c |} in
  (c', TaskListComponent.updateFilter c' s).

(** [onShowCompletedChange(event)], with [checked] for
    [event.target.checked]. *)
Definition onShowCompletedChange (checked : bool)
           (c : TaskListComponent.t) (s : Store)
  : TaskListComponent.t * Store :=
  let c' :=
    {| TaskListComponent.searchTerm := TaskListComponent.searchTerm c;
       TaskListComponent.showCompleted := checked;
       TaskListComponent.selectedPriority :=
         TaskListComponent.selectedPriority c |} in
  (c', TaskListComponent.updateFilter c' s).

(** What the priority select carries in [event.target.value]: [''] or the
    string of an enum member, which the handler casts to [TaskPriority]. *)
Definition select_value (choice : option TaskPriority) : string :=
  match choice with
  | None => ""
  | Some p => TaskPriority_value p
  end.

(** [onPriorityFilterChange(event)]:
    [target.value ? target.value as TaskPriority : null]. *)
Definition onPriorityFilterChange (choice : option TaskPriority)
           (c : TaskListComponent.t) (s : Store)
  : TaskListComponent.t * Store :=
  let c' :=
    {| TaskListComponent.searchTerm := TaskListComponent.searchTerm c;
       TaskListComponent.showCompleted := TaskListComponent.showCompleted c;
       TaskListComponent.selectedPriority :=
         if truthy_string (select_value choice) then choice else None |} in
  (c', TaskListComponent.updateFilter c' s).

Definition onToggleComplete (taskId : string) (s : Store) : Store :=
  toggleTask taskId s.

Section EditTask.

(** [String.prototype.trim] is the platform's. *)
Variable trim : string -> string.

(** [onEditTask(task)]; [answer] is what [prompt] returns: the text, or
    [null] ([None]) when the dialog is cancelled. *)
Definition onEditTask (answer : option string) (task : Task.t) (s : Store)
  : Store :=
  match answer with
  | Some newTitle =>
      if truthy_string newTitle && truthy_string (trim newTitle) &&
         negb (String.eqb newTitle (Task.title task))
      then updateTask (Task.id task)
                      {| PartialTask.id := None;
                         PartialTask.title := Some (trim newTitle);
                         PartialTask.description := None;
                         PartialTask.completed := None;
                         PartialTask.priority := None;
                         PartialTask.dueDate := None;
                         PartialTask.createdAt := None |}
                      s
      else s
  | None => s
  end.

End EditTask.

(** [onDeleteTask(taskId)]; [confirmed] is what [confirm] returns. *)
Definition onDeleteTask (confirmed : bool) (taskId : string) (s : Store)
  : Store :=
  if confirmed then deleteTask taskId s else s.

Definition trackByTaskId (index : nat) (task : Task.t) : string :=
  Task.id task.

End TaskList.

(** ** The add-task form (add-task.component.ts) *)

Module AddTaskComponent.

(** [this.taskForm.value] as [onSubmit] reads it under [taskForm.valid]:
    [Validators.required] keeps [null] out of the title of a valid form;
    the other text controls are [null] ([None]) after a [reset]. *)
Record FormValue : Type := mkFormValue {
  title : string;
  description : option string;
  priority : TaskPriority;
  dueDate : option string
}.

(** A callback handed to [setTimeout] and not run yet: the one of
    [onSubmit], which has captured [task], or the one that hides the
    success message. *)
Inductive Timer : Type :=
| AddTimer (task : TaskDraft.t)
| HideTimer.

(** The two flags of the component and the callbacks it has pending. *)
Record t : Type := mk {
  isSubmitting : bool;
  showSuccessMessage : bool;
  timers : list Timer
}.

Definition initial : t :=
  {| isSubmitting := false; showSuccessMessage := false; timers := [] |}.

Section Submit.

(** [String.prototype.trim] and the time value of [new Date(text)] are the
    platform's. *)
Variable trim : string -> string.
Variable parseDate : string -> Date.

(** The object literal [task] that [onSubmit] builds from the form. *)
Definition submitted_task (formValue : FormValue) : TaskDraft.t :=
  {| TaskDraft.title := trim (title formValue);
     TaskDraft.description :=
       match description formValue with
       | Some text => if truthy_string (trim text) then trim text else ""
       | None => ""
       end;
     TaskDraft.priority := priority formValue;
     TaskDraft.completed := false;
     TaskDraft.dueDate :=
       match dueDate formValue with
       | Some text => if truthy_string text then Some (parseDate text) else None
       | None => None
       end |}.

(** [onSubmit()]; [valid] and [formValue] are [this.taskForm.valid] and
    [this.taskForm.value] at the time of the call. *)
Definition onSubmit (valid : bool) (formValue : FormValue) (c : t) : t :=
  if valid && negb (isSubmitting c)
  then {| isSubmitting := true;
          showSuccessMessage := showSuccessMessage c;
          timers := (timers c ++ [AddTimer (submitted_task formValue)])%list |}
  else c.

End Submit.

(** The body of a pending callback, run when its timer fires; [c] no longer
    lists it.  [addTask] raises nothing, so the [catch] branch is never
    taken.  The form that the callback resets is not part of [t]: every
    submit reads it afresh, as the arguments of [onSubmit]. *)
Definition fire (uuid : string) (now : Date) (timer : Timer)
           (c : t) (s : Store) : t * Store :=
  match timer with
  | AddTimer task =>
      ({| isSubmitting := false;
          showSuccessMessage := true;
          timers := (timers c ++ [HideTimer])%list |},
       addTask uuid now task s)
  | HideTimer =>
      ({| isSubmitting := isSubmitting c;
          showSuccessMessage := false;
          timers := timers c |},
       s)
  end.

(** [onReset()] *)
Definition onReset (c : t) : t :=
  {| isSubmitting := isSubmitting c;
     showSuccessMessage := false;
     timers := timers c |}.

(** What can happen to the component: a click on submit, a click on reset,
    or the pending callback at position [k] being run.  Any pending
    callback may be the next to run, which covers the order in which the
    timers of the platform fire. *)
Inductive Event : Type :=
| Submit (valid : bool) (formValue : FormValue)
| Reset
| Fire (k : nat) (uuid : string) (now : Date).

Definition remove_nth {A : Type} (k : nat) (l : list A) : list A :=
  (firstn k l ++ skipn (S k) l)%list.

Section Steps.

Variable trim : string -> string.
Variable parseDate : string -> Date.

Definition step (st : t * Store) (e : Event) : t * Store :=
  let (c, s) := st in
  match e with
  | Submit valid formValue => (onSubmit trim parseDate valid formValue c, s)
  | Reset => (onReset c, s)
  | Fire k uuid now =>
      match nth_error (timers c) k with
      | Some timer =>
          fire uuid now timer
               {| isSubmitting := isSubmitting c;
                  showSuccessMessage := showSuccessMessage c;
                  timers := remove_nth k (timers c) |}
               s
      | None => (c, s)
      end
  end.

Definition run (st : t * Store) (events : list Event) : t * Store :=
  fold_left step events st.

End Steps.

(** The number of [addTask] callbacks pending. *)
Definition adds_pending (c : t) : nat :=
  List.length
    (List.filter (fun timer =>
                    match timer with
                    | AddTimer _ => true
                    | HideTimer => false
                    end)
                 (timers c)).

End AddTaskComponent.

(** ** More vocabulary *)

(** One key of [{ ...first, ...second }] for two partial records. *)
Definition spread_key {A : Type} (first second : option A) : option A :=
  match second with
  | Some _ => second
  | None => first
  end.

(** [{ ...first, ...second }] on [Partial<Task>]. *)
Definition spread_partial_task (first second : PartialTask.t) : PartialTask.t :=
  {| PartialTask.id := spread_key (PartialTask.id first) (PartialTask.id second);
     PartialTask.title :=
       spread_key (PartialTask.title first) (PartialTask.title second);
     PartialTask.description :=
       spread_key (PartialTask.description first)
                  (PartialTask.description second);
     PartialTask.completed :=
       spread_key (PartialTask.completed first) (PartialTask.completed second);
     PartialTask.priority :=
       spread_key (PartialTask.priority first) (PartialTask.priority second);
     PartialTask.dueDate :=
       spread_key (PartialTask.dueDate first) (PartialTask.dueDate second);
     PartialTask.createdAt :=
       spread_key (PartialTask.createdAt first)
                  (PartialTask.createdAt second) |}.

(** [{ ...first, ...second }] on [Partial<TaskFilter>]. *)
Definition spread_partial_filter (first second : PartialFilter.t)
  : PartialFilter.t :=
  {| PartialFilter.showCompleted :=
       spread_key (PartialFilter.showCompleted first)
                  (PartialFilter.showCompleted second);
     PartialFilter.priority :=
       spread_key (PartialFilter.priority first)
                  (PartialFilter.priority second);
     PartialFilter.searchTerm :=
       spread_key (PartialFilter.searchTerm first)
                  (PartialFilter.searchTerm second) |}.

(** The [updateFilter] calls of a run, in order, and the run without
    them. *)
Definition filter_calls (ops : list Op) : list PartialFilter.t :=
  flat_map (fun op =>
              match op with
              | UpdateFilter filter => [filter]
              | _ => []
              end)
           ops.

Definition task_calls (ops : list Op) : list Op :=
  List.filter (fun op =>
                 match op with
                 | UpdateFilter _ => false
                 | _ => true
                 end)
              ops.

(** The task that [addTask] appends. *)
Definition new_task (uuid : string) (now : Date) (task : TaskDraft.t)
  : Task.t :=
  {| Task.id := uuid;
     Task.title := TaskDraft.title task;
     Task.description := TaskDraft.description task;
     Task.completed := TaskDraft.completed task;
     Task.priority := TaskDraft.priority task;
     Task.dueDate := TaskDraft.dueDate task;
     Task.createdAt := now |}.

(** An instance of [trim] for running the handlers: the blanks of the real
    one that fit in a byte. *)
Definition is_blank (c : ascii) : bool :=
  let n := nat_of_ascii c in
  ((9 <=? n) && (n <=? 13) || (n =? 32))%nat.

Fixpoint trim_start_ascii (s : string) : string :=
  match s with
  | EmptyString => EmptyString
  | String c rest => if is_blank c then trim_start_ascii rest else s
  end.

Fixpoint trim_end_ascii (s : string) : string :=
  match s with
  | EmptyString => EmptyString
  | String c rest =>
      match trim_end_ascii rest with
      | EmptyString => if is_blank c then EmptyString else String c EmptyString
      | kept => String c kept
      end
  end.

Definition trim_ascii (s : string) : string :=
  trim_end_ascii (trim_start_ascii s).

Definition form_test : AddTaskComponent.FormValue :=
  {| AddTaskComponent.title := "  Write report ";
     AddTaskComponent.description := None;
     AddTaskComponent.priority := MEDIUM;
     AddTaskComponent.dueDate := Some "" |}.

(** ** Proof steps *)

(** A run of calls none of which names a field leaves that field alone. *)
Ltac field_untouched calls :=
  induction calls as [|c calls IH]; intros s Hnone;
  [ reflexivity
  | inversion Hnone as [|c' calls' Hc Hrest]; subst;
    cbn [update_filter_all fold_left];
    change (fold_left (fun st filter => updateFilter filter st) calls
                      (updateFilter c s))
      with (update_filter_all calls (updateFilter c s));
    rewrite (IH _ Hrest);
    cbn [updateFilter getFilter _filter spread_filter
         TaskFilter.showCompleted TaskFilter.priority TaskFilter.searchTerm];
    rewrite Hc; reflexivity ].

(** ** Basic facts *)

Lemma store_eta (s : Store) : {| _tasks := _tasks s; _filter := _filter s |} = s.
Proof. destruct s; reflexivity. Qed.

Lemma TaskPriority_eqb_eq (p q : TaskPriority) :
  TaskPriority_eqb p q = true <-> p = q.
Proof. destruct p, q; cbv; split; congruence. Qed.

Lemma truthy_priority_some (p : TaskPriority) : truthy_priority (Some p) = true.
Proof. destruct p; reflexivity. Qed.

Lemma truthy_string_empty (s : string) : truthy_string s = false <-> s = "".
Proof.
  unfold truthy_string. rewrite negb_false_iff. apply String.eqb_eq.
Qed.

Lemma prefix_app (p s : string) :
  String.prefix p s = true <-> exists post, s = p ++ post.
Proof.
  revert s. induction p as [|a p IH]; intros [|b s]; simpl.
  - split; [intros _; exists ""; reflexivity | reflexivity].
  - split; [intros _; exists (String b s); reflexivity | reflexivity].
  - split; [discriminate | intros [post H]; discriminate].
  - destruct (ascii_dec a b) as [->|Hab].
    + rewrite IH. split; intros [post H]; exists post; congruence.
    + split; [discriminate | intros [post H]; congruence].
Qed.

Lemma includes_contains (s sub : string) :
  includes s sub = true <-> contains s sub.
Proof.
  unfold contains. induction s as [|c s IH]; cbn [includes].
  - rewrite orb_false_r, prefix_app. split.
    + intros [post H]. exists "", post. exact H.
    + intros [pre [post H]]. destruct pre; [|discriminate].
      exists post. exact H.
  - rewrite orb_true_iff, prefix_app, IH. split.
    + intros [[post H] | [pre [post H]]].
      * exists "", post. exact H.
      * exists (String c pre), post. simpl. congruence.
    + intros [pre [post H]]. destruct pre as [|c' pre]; simpl in H.
      * left. exists post. exact H.
      * right. exists pre, post. congruence.
Qed.

Lemma kept_in_order_filter {A : Type} (P : A -> Prop) (f : A -> bool) :
  (forall x, f x = true <-> P x) ->
  forall l, kept_in_order P l (List.filter f l).
Proof.
  intros Hf l. induction l as [|x l IH]; simpl.
  - constructor.
  - destruct (f x) eqn:E.
    + apply kept_keep; [apply Hf; exact E | exact IH].
    + apply kept_drop; [rewrite <- Hf; congruence | exact IH].
Qed.

Lemma kept_in_order_unique {A : Type} (P : A -> Prop) (l r1 r2 : list A) :
  kept_in_order P l r1 -> kept_in_order P l r2 -> r1 = r2.
Proof.
  intros H1. revert r2.
  induction H1; intros r2 H2; inversion H2; subst;
    try reflexivity; try contradiction.
  - f_equal. auto.
  - auto.
Qed.

Lemma filter_closure_passes (lc : string -> string)
      (filter : TaskFilter.t) (task : Task.t) :
  filter_closure lc filter task = true <-> passes lc filter task.
Proof.
  unfold filter_closure, passes, matchesCompleted, matchesPriority,
    matchesSearch.
  rewrite !andb_true_iff, !orb_true_iff, !negb_true_iff,
    !includes_contains, truthy_string_empty, not_true_iff_false.
  assert (Hp : truthy_priority (TaskFilter.priority filter) = false \/
               match TaskFilter.priority filter with
               | Some p => TaskPriority_eqb (Task.priority task) p
               | None => false
               end = true <->
               TaskFilter.priority filter = None \/
               TaskFilter.priority filter = Some (Task.priority task)).
  { destruct (TaskFilter.priority filter) as [p|].
    - rewrite truthy_priority_some, TaskPriority_eqb_eq.
      split; intros [H|H]; try discriminate; right; congruence.
    - split; intros _; left; reflexivity. }
  rewrite Hp. tauto.
Qed.

Lemma holds_id_In (id : string) (s : Store) :
  holds_id id s = true <-> In id (ids s).
Proof.
  unfold holds_id. rewrite existsb_exists. split.
  - intros [x [Hx E]]. apply String.eqb_eq in E. subst. exact Hx.
  - intros H. exists id. split; [exact H | apply String.eqb_refl].
Qed.

Lemma holds_id_false (id : string) (s : Store) :
  holds_id id s = false <-> ~ In id (ids s).
Proof.
  rewrite <- holds_id_In. destruct (holds_id id s); split; congruence.
Qed.

(** A [map] whose function only touches the tasks holding [id]. *)
Lemma map_on_id_absent (f : Task.t -> Task.t) (id : string) (l : list Task.t) :
  ~ In id (List.map Task.id l) ->
  List.map (fun task => if String.eqb (Task.id task) id then f task else task) l
  = l.
Proof.
  induction l as [|x l IH]; simpl; intros H.
  - reflexivity.
  - destruct (String.eqb_spec (Task.id x) id) as [E|E].
    + exfalso. apply H. left. exact E.
    + f_equal. apply IH. intros Hin. apply H. right. exact Hin.
Qed.

Lemma filter_on_id_absent (id : string) (l : list Task.t) :
  ~ In id (List.map Task.id l) ->
  List.filter (fun task => negb (String.eqb (Task.id task) id)) l = l.
Proof.
  induction l as [|x l IH]; simpl; intros H.
  - reflexivity.
  - destruct (String.eqb_spec (Task.id x) id) as [E|E]; simpl.
    + exfalso. apply H. left. exact E.
    + f_equal. apply IH. intros Hin. apply H. right. exact Hin.
Qed.

Lemma map_on_id_nth (f : Task.t -> Task.t) (id : string) (l : list Task.t)
      (i : nat) (task : Task.t) :
  nth_error l i = Some task ->
  nth_error
    (List.map (fun x => if String.eqb (Task.id x) id then f x else x) l) i
  = Some (if String.eqb (Task.id task) id then f task else task).
Proof.
  intros H. rewrite nth_error_map, H. reflexivity.
Qed.

(** A [map] that keeps every id keeps the list of ids. *)
Lemma map_keeps_ids (f : Task.t -> Task.t) (l : list Task.t) :
  (forall task, In task l -> Task.id (f task) = Task.id task) ->
  List.map Task.id (List.map f l) = List.map Task.id l.
Proof.
  intros H. rewrite map_map. apply map_ext_in. exact H.
Qed.

Lemma NoDup_map_filter {A B : Type} (g : A -> B) (f : A -> bool) (l : list A) :
  NoDup (List.map g l) -> NoDup (List.map g (List.filter f l)).
Proof.
  induction l as [|x l IH]; simpl; intros H.
  - constructor.
  - inversion H as [|y ys Hnotin Hnd]; subst.
    destruct (f x); simpl; [|auto].
    constructor; [|auto].
    intros Hin. apply Hnotin.
    apply in_map_iff in Hin. destruct Hin as [z [Hz Hin]].
    apply filter_In in Hin. apply in_map_iff. exists z. tauto.
Qed.

(** ** C1: what [updateTask] does to the task it matches *)

(** C1, as the specification states it, fails on the code: the spread
    [{ ...task, ...updates }] lets the keys [id] and [createdAt] of the
    partial record win.  On the seed, [updateTask('1', { id: '7',
    createdAt: 0 })] leaves the first task with id ['7'] and creation time
    [0]. *)
Lemma updateTask_overwrites_id_and_createdAt :
  List.map (fun task => (Task.id task, Task.createdAt task)) (tasks seed)
  = [("1", 1000%Z); ("2", (1000 - 86400000)%Z)] /\
  List.map (fun task => (Task.id task, Task.createdAt task))
           (tasks (updateTask "1" (id_and_createdAt "7" 0%Z) seed))
  = [("7", 0%Z); ("2", (1000 - 86400000)%Z)].
Proof. split; reflexivity. Qed.

(** What one key of the spread leaves in a field, told without [spread]. *)
Lemma spread_cases {A : Type} (prior : A) (supplied : option A) :
  match supplied with
  | Some v => spread prior supplied = v
  | None => spread prior supplied = prior
  end.
Proof. destruct supplied; reflexivity. Qed.

Lemma spread_unchanged {A : Type} (prior : A) (supplied : option A) :
  spread prior supplied = prior <-> supplied = None \/ supplied = Some prior.
Proof.
  destruct supplied as [v|]; simpl.
  - split; [intros ->; right; reflexivity | intros [H|H]; congruence].
  - split; [intros _; left; reflexivity | reflexivity].
Qed.

(** C1 (amended): for a task held at position [i] whose id is the argument,
    [updateTask] puts at position [i] a task in which every field, [id] and
    [createdAt] included, has the value the partial record supplies for it
    when the key is present and its prior value when the key is missing; so
    each of [id] and [createdAt] stays as it was exactly when the partial
    record does not name it or names it with the value it already has, and
    is overwritten otherwise. *)
Theorem updateTask_spreads_every_field
        (s : Store) (id : string) (updates : PartialTask.t)
        (i : nat) (task : Task.t) :
  nth_error (tasks s) i = Some task ->
  Task.id task = id ->
  exists task',
    nth_error (tasks (updateTask id updates s)) i = Some task' /\
    match PartialTask.id updates with
    | Some v => Task.id task' = v
    | None => Task.id task' = Task.id task
    end /\
    match PartialTask.title updates with
    | Some v => Task.title task' = v
    | None => Task.title task' = Task.title task
    end /\
    match PartialTask.description updates with
    | Some v => Task.description task' = v
    | None => Task.description task' = Task.description task
    end /\
    match PartialTask.completed updates with
    | Some v => Task.completed task' = v
    | None => Task.completed task' = Task.completed task
    end /\
    match PartialTask.priority updates with
    | Some v => Task.priority task' = v
    | None => Task.priority task' = Task.priority task
    end /\
    match PartialTask.dueDate updates with
    | Some v => Task.dueDate task' = v
    | None => Task.dueDate task' = Task.dueDate task
    end /\
    match PartialTask.createdAt updates with
    | Some v => Task.createdAt task' = v
    | None => Task.createdAt task' = Task.createdAt task
    end /\
    (Task.id task' = Task.id task <->
     PartialTask.id updates = None \/
     PartialTask.id updates = Some (Task.id task)) /\
    (Task.createdAt task' = Task.createdAt task <->
     PartialTask.createdAt updates = None \/
     PartialTask.createdAt updates = Some (Task.createdAt task)).
Proof.
  intros Hi Hid. exists (spread_task task updates). split.
  - unfold updateTask, tasks in *. cbn [_tasks].
    rewrite (map_on_id_nth (fun x => spread_task x updates) id _ i task Hi).
    rewrite Hid, String.eqb_refl. reflexivity.
  - cbn [spread_task Task.id Task.title Task.description Task.completed
         Task.priority Task.dueDate Task.createdAt].
    repeat match goal with
           | |- _ /\ _ => split
           end;
      try apply spread_cases; apply spread_unchanged.
Qed.

Lemma updateTask_spreads_every_field_on_seed :
  exists task',
    nth_error (tasks (updateTask "1" (only_title "X") seed)) 0 = Some task' /\
    Task.id task' = "1" /\
    Task.title task' = "X" /\
    Task.description task' = "Understand the new signals API" /\
    Task.completed task' = false /\
    Task.priority task' = HIGH /\
    Task.dueDate task' = Some (1000 + 7 * day_ms)%Z /\
    Task.createdAt task' = 1000%Z /\
    (Task.id task' = "1" <->
     PartialTask.id (only_title "X") = None \/
     PartialTask.id (only_title "X") = Some "1") /\
    (Task.createdAt task' = 1000%Z <->
     PartialTask.createdAt (only_title "X") = None \/
     PartialTask.createdAt (only_title "X") = Some 1000%Z).
Proof.
  exact (updateTask_spreads_every_field seed "1" (only_title "X") 0
           {| Task.id := "1";
              Task.title := "Learn Angular 16 Signals";
              Task.description := "Understand the new signals API";
              Task.completed := false;
              Task.priority := HIGH;
              Task.createdAt := 1000%Z;
              Task.dueDate := Some (1000 + 7 * day_ms)%Z |}
           eq_refl eq_refl).
Defined.

(** ** C2: the filtered view *)

(** C2: [filteredTasks()] is [tasks()] with exactly the tasks that pass
    [matchesCompleted], [matchesPriority] and [matchesSearch] kept, in the
    order they have in [tasks()]. *)
Theorem filteredTasks_keeps_passing_in_order
        (toLowerCase : string -> string) (s : Store) :
  kept_in_order (passes toLowerCase (getFilter s))
                (tasks s) (filteredTasks toLowerCase s).
Proof.
  unfold filteredTasks, tasks, getFilter.
  apply kept_in_order_filter. intros task.
  apply filter_closure_passes.
Qed.

(** ** C3: [addTask] *)

(** C3: [addTask] makes the sequence one longer, keeps the tasks held
    before as its first elements and puts last a task with the fields of
    the draft, the generated id and the current time as [createdAt]; the
    filter is not touched. *)
Theorem addTask_appends_new_task
        (s : Store) (uuid : string) (now : Date) (draft : TaskDraft.t) :
  let s' := addTask uuid now draft s in
  let newTask :=
    {| Task.id := uuid;
       Task.title := TaskDraft.title draft;
       Task.description := TaskDraft.description draft;
       Task.completed := TaskDraft.completed draft;
       Task.priority := TaskDraft.priority draft;
       Task.dueDate := TaskDraft.dueDate draft;
       Task.createdAt := now |} in
  tasks s' = (tasks s ++ [newTask])%list /\
  totalCount s' = S (totalCount s) /\
  firstn (totalCount s) (tasks s') = tasks s /\
  nth_error (tasks s') (totalCount s) = Some newTask /\
  List.last (List.map Some (tasks s')) None = Some newTask /\
  getFilter s' = getFilter s.
Proof.
  unfold addTask, tasks, totalCount, getFilter. cbn [_tasks _filter].
  repeat split.
  - rewrite length_app. simpl. lia.
  - rewrite firstn_app, Nat.sub_diag, firstn_all. simpl. apply app_nil_r.
  - rewrite nth_error_app2, Nat.sub_diag by lia. reflexivity.
  - rewrite map_app. simpl. apply last_last.
Qed.

(** ** C4: uniqueness of ids *)

Lemma unique_ids_init (t0 t1 t2 : Date) : unique_ids (init t0 t1 t2).
Proof.
  unfold unique_ids, ids, tasks, init. cbn [_tasks List.map Task.id].
  repeat constructor; simpl; intuition discriminate.
Qed.

(** The ids after [updateTask]: the id of the call is replaced where it
    occurs, by what the partial record supplies for [id]. *)
Lemma ids_updateTask (s : Store) (id : string) (updates : PartialTask.t) :
  ids (updateTask id updates s)
  = List.map (fun x => if String.eqb x id
                       then spread x (PartialTask.id updates) else x)
             (ids s).
Proof.
  unfold ids, tasks, updateTask. cbn [_tasks]. rewrite !map_map.
  apply map_ext. intros task.
  destruct (String.eqb (Task.id task) id); reflexivity.
Qed.

Lemma rename_absent (a b : string) (l : list string) :
  ~ In a l ->
  List.map (fun x => if String.eqb x a then b else x) l = l.
Proof.
  induction l as [|x l IH]; simpl; intros H; [reflexivity |].
  destruct (String.eqb_spec x a) as [E|E].
  - exfalso. apply H. left. exact E.
  - f_equal. apply IH. tauto.
Qed.

Lemma rename_In (a b y : string) (l : list string) :
  In y (List.map (fun x => if String.eqb x a then b else x) l) ->
  y = b \/ In y l.
Proof.
  intros H. apply in_map_iff in H. destruct H as [x [E Hx]].
  destruct (String.eqb x a); [left; congruence | right; congruence].
Qed.

(** Renaming to an id that is not held keeps the ids apart. *)
Lemma rename_NoDup (a b : string) (l : list string) :
  NoDup l -> ~ In b l ->
  NoDup (List.map (fun x => if String.eqb x a then b else x) l).
Proof.
  induction l as [|x l IH]; simpl; intros Hnd Hb; [constructor |].
  inversion Hnd as [|y ys Hx Hl]; subst.
  constructor; [| apply IH; tauto].
  destruct (String.eqb_spec x a) as [E|E].
  - subst x. rewrite rename_absent by exact Hx. tauto.
  - intros H. apply rename_In in H. destruct H as [H|H]; [| tauto].
    subst b. tauto.
Qed.

(** Renaming to an id that another element holds puts it there twice. *)
Lemma rename_clash (a b : string) (l : list string) :
  In a l -> In b l -> a <> b ->
  ~ NoDup (List.map (fun x => if String.eqb x a then b else x) l).
Proof.
  induction l as [|x l IH]; simpl; intros Ha Hb Hab Hnd; [contradiction |].
  inversion Hnd as [|y ys Hx Hl]; subst. apply Hx.
  assert (Hkeep : forall z, z <> a -> In z l ->
            In z (List.map (fun x => if String.eqb x a then b else x) l)).
  { intros z Hz Hin. apply in_map_iff. exists z. split; [| exact Hin].
    apply String.eqb_neq in Hz. rewrite Hz. reflexivity. }
  assert (Hmove : In a l ->
            In b (List.map (fun x => if String.eqb x a then b else x) l)).
  { intros Hin. apply in_map_iff. exists a. split; [| exact Hin].
    rewrite String.eqb_refl. reflexivity. }
  destruct (String.eqb_spec x a) as [E|E].
  - subst x. destruct Hb as [Hb|Hb]; [contradiction |].
    apply Hkeep; [congruence | exact Hb].
  - destruct Ha as [Ha|Ha]; [contradiction |].
    destruct Hb as [Hb|Hb].
    + subst x. apply Hmove. exact Ha.
    + exfalso. apply (IH Ha Hb Hab Hl).
Qed.

(** In a store with unique ids, a call keeps them unique exactly when it is
    one of those that [keeps_ids_apart] lets through. *)
Lemma unique_ids_step (s : Store) (op : Op) :
  unique_ids s ->
  (unique_ids (step s op) <-> keeps_ids_apart s op = true).
Proof.
  unfold unique_ids. intros Hs.
  destruct op as [uuid now task | id updates | id | id | filter];
    cbn [step keeps_ids_apart].
  - rewrite negb_true_iff, holds_id_false.
    unfold ids, tasks, addTask in *. cbn [_tasks].
    rewrite map_app. cbn [List.map Task.id]. split.
    + intros H. apply NoDup_remove_2 in H. rewrite app_nil_r in H. exact H.
    + intros H. apply NoDup_app; [exact Hs | repeat constructor; simpl; tauto |].
      intros x Hx [Hx' | []]. subst. exact (H Hx).
  - rewrite ids_updateTask.
    destruct (PartialTask.id updates) as [id'|]; cbn [spread].
    + destruct (String.eqb_spec id' id) as [E|E]; cbn [orb].
      * subst id'.
        replace (List.map (fun x => if String.eqb x id then id else x) (ids s))
          with (ids s); [tauto |].
        rewrite <- (map_id (ids s)) at 1. apply map_ext. intros x.
        destruct (String.eqb_spec x id); congruence.
      * destruct (holds_id id s) eqn:Hid; cbn [negb orb].
        -- destruct (holds_id id' s) eqn:Hid'; cbn [negb].
           ++ apply holds_id_In in Hid, Hid'. split; [| discriminate].
              intros H. exfalso.
              apply (rename_clash id id' (ids s) Hid Hid'); congruence.
           ++ apply holds_id_false in Hid'. split; [reflexivity |].
              intros _. apply rename_NoDup; assumption.
        -- apply holds_id_false in Hid. rewrite rename_absent by exact Hid.
           tauto.
    + replace (List.map (fun x => if String.eqb x id then x else x) (ids s))
        with (ids s); [tauto |].
      rewrite <- (map_id (ids s)) at 1. apply map_ext. intros x.
      destruct (String.eqb x id); reflexivity.
  - split; [reflexivity | intros _].
    unfold ids, tasks, deleteTask. cbn [_tasks].
    apply NoDup_map_filter. exact Hs.
  - split; [reflexivity | intros _].
    unfold ids, tasks, toggleTask. cbn [_tasks].
    rewrite map_keeps_ids; [exact Hs |].
    intros task _. destruct (String.eqb (Task.id task) id); reflexivity.
  - split; [reflexivity | intros _]. exact Hs.
Qed.

Lemma unique_ids_run (ops : list Op) :
  forall s, unique_ids s -> admissible s ops = true -> unique_ids (run s ops).
Proof.
  induction ops as [|op ops IH]; intros s Hs Hadm.
  - exact Hs.
  - cbn [admissible] in Hadm. apply andb_true_iff in Hadm.
    destruct Hadm as [Hop Hrest]. cbn [run fold_left].
    apply IH; [apply (unique_ids_step s op Hs); exact Hop | exact Hrest].
Qed.

(** C4, as the specification states it, fails on the code for [updateTask]
    with any partial record: on the seed, whose ids are unique,
    [updateTask('1', { id: '2' })] leaves two tasks holding id ['2']. *)
Lemma updateTask_breaks_unique_ids :
  unique_ids seed /\
  ids (step seed (UpdateTask "1" (only_id "2"))) = ["2"; "2"] /\
  ~ unique_ids (step seed (UpdateTask "1" (only_id "2"))).
Proof.
  split; [apply unique_ids_init | split; [reflexivity |]].
  unfold unique_ids.
  change (ids (step seed (UpdateTask "1" (only_id "2")))) with ["2"; "2"].
  intros H. inversion H as [|x l Hnotin _]; subst.
  apply Hnotin. left. reflexivity.
Qed.

(** C4 (amended): no two tasks share an id in the seeded state; from a
    state where the property holds, it is kept by [addTask] exactly when
    the generated id is not held yet, by every [updateTask] except the one
    whose partial record gives a held task an id that another task holds,
    and by every [deleteTask], [toggleTask] and [updateFilter]; so it holds
    after every run of such calls from the seeded state. *)
Theorem unique_ids_invariant
        (t0 t1 t2 : Date) (s : Store) (op : Op) (ops : list Op) :
  unique_ids (init t0 t1 t2) /\
  (unique_ids s ->
   (unique_ids (step s op) <-> keeps_ids_apart s op = true)) /\
  (admissible (init t0 t1 t2) ops = true ->
   unique_ids (run (init t0 t1 t2) ops)).
Proof.
  split; [apply unique_ids_init | split].
  - apply unique_ids_step.
  - apply unique_ids_run, unique_ids_init.
Qed.

Lemma unique_ids_invariant_on_seed :
  unique_ids seed /\
  unique_ids (step seed (UpdateTask "1" (only_id "7"))) /\
  unique_ids
    (run seed
         [ AddTask "3f0c" 2000%Z draft_test;
           UpdateTask "1" (only_id "7");
           UpdateTask "9" (only_id "2");
           ToggleTask "2";
           DeleteTask "7";
           UpdateFilter PartialFilter.empty;
           UpdateTask "2" (only_id "2");
           UpdateTask "3f0c" (only_title "X") ]).
Proof.
  pose proof (unique_ids_invariant 1000%Z 1000%Z 1000%Z seed
                (UpdateTask "1" (only_id "7"))
                [ AddTask "3f0c" 2000%Z draft_test;
                  UpdateTask "1" (only_id "7");
                  UpdateTask "9" (only_id "2");
                  ToggleTask "2";
                  DeleteTask "7";
                  UpdateFilter PartialFilter.empty;
                  UpdateTask "2" (only_id "2");
                  UpdateTask "3f0c" (only_title "X") ]) as [H0 [H1 H2]].
  split; [exact H0 | split].
  - apply (proj2 (H1 H0)). reflexivity.
  - apply H2. reflexivity.
Defined.

(** ** C5: calls on an id that no task holds *)

(** C5: when no task holds [id], each of [updateTask], [deleteTask] and
    [toggleTask] returns the store as it is (they are total functions:
    nothing in them raises), so the task sequence, the filter and with them
    the four derived views are unchanged. *)
Theorem unknown_id_is_noop
        (s : Store) (id : string) (updates : PartialTask.t) :
  holds_id id s = false ->
  updateTask id updates s = s /\
  deleteTask id s = s /\
  toggleTask id s = s.
Proof.
  intros Hid. apply holds_id_false in Hid. unfold ids, tasks in Hid.
  unfold updateTask, deleteTask, toggleTask.
  rewrite !map_on_id_absent, filter_on_id_absent by exact Hid.
  rewrite store_eta. auto.
Qed.

Lemma unknown_id_is_noop_on_seed :
  updateTask "9" (only_title "X") seed = seed /\
  deleteTask "9" seed = seed /\
  toggleTask "9" seed = seed.
Proof.
  apply (unknown_id_is_noop seed "9" (only_title "X")). reflexivity.
Defined.

(** ** C6: [toggleTask] against [updateTask] *)

Lemma flip_completed_spread (task : Task.t) :
  flip_completed task
  = spread_task task (only_completed (negb (Task.completed task))).
Proof. reflexivity. Qed.

(** With unique ids, the tasks holding the id of a held task all carry its
    flag: there is only that task. *)
Lemma unique_ids_same_flag (s : Store) (task task' : Task.t) :
  unique_ids s ->
  In task (tasks s) -> In task' (tasks s) ->
  Task.id task' = Task.id task ->
  Task.completed task' = Task.completed task.
Proof.
  unfold unique_ids, ids. intros Hnd Hin Hin' Hid.
  apply In_nth_error in Hin. destruct Hin as [i Hi].
  apply In_nth_error in Hin'. destruct Hin' as [j Hj].
  assert (Hlt : i < List.length (List.map Task.id (tasks s))).
  { rewrite length_map. apply nth_error_Some. congruence. }
  assert (E : i = j).
  { apply (proj1 (NoDup_nth_error (List.map Task.id (tasks s))) Hnd i j Hlt).
    rewrite !nth_error_map, Hi, Hj. simpl. congruence. }
  subst j. congruence.
Qed.

(** C6, as the specification states it, fails on the code in a store state
    where two tasks hold the id: [toggleTask] flips each of them, while
    [updateTask] gives all of them the one flag of its partial record.
    After [updateTask('1', { id: '2' })] on the seed both tasks hold ['2'],
    with flags [false] and [true]; [toggleTask('2')] yields [true; false],
    and neither [{ completed: true }] nor [{ completed: false }] does. *)
Lemma toggleTask_differs_on_shared_id :
  List.map Task.completed (tasks seed_clash) = [false; true] /\
  List.map Task.completed (tasks (toggleTask "2" seed_clash))
  = [true; false] /\
  List.map Task.completed
           (tasks (updateTask "2" (only_completed true) seed_clash))
  = [true; true] /\
  List.map Task.completed
           (tasks (updateTask "2" (only_completed false) seed_clash))
  = [false; false] /\
  toggleTask "2" seed_clash
  <> updateTask "2" (only_completed true) seed_clash /\
  toggleTask "2" seed_clash
  <> updateTask "2" (only_completed false) seed_clash.
Proof.
  repeat split; try reflexivity; intros H;
    apply (f_equal (fun st => List.map Task.completed (tasks st))) in H;
    discriminate H.
Qed.

(** C6 (amended): in a store state where every task holding [id] has the
    completed flag [c] (so whenever at most one task holds [id], and, for
    any [c], when none does), [toggleTask(id)] yields the same store state
    as [updateTask(id, { completed: !c })]. *)
Theorem toggleTask_is_updateTask_completed
        (s : Store) (id : string) (c : bool) :
  (forall task, In task (tasks s) -> Task.id task = id ->
                Task.completed task = c) ->
  toggleTask id s = updateTask id (only_completed (negb c)) s.
Proof.
  intros H. unfold toggleTask, updateTask. f_equal.
  apply map_ext_in. intros task Hin.
  destruct (String.eqb_spec (Task.id task) id) as [E|E]; [|reflexivity].
  rewrite flip_completed_spread, (H task Hin E). reflexivity.
Qed.

Lemma toggleTask_is_updateTask_completed_on_seed :
  toggleTask "1" seed = updateTask "1" (only_completed true) seed.
Proof.
  apply (toggleTask_is_updateTask_completed seed "1" false).
  intros task Hin Hid. simpl in Hin.
  destruct Hin as [<- | [<- | []]].
  - reflexivity.
  - discriminate Hid.
Defined.

(** ** C7: [updateFilter] merges *)

Lemma update_filter_all_app (a b : list PartialFilter.t) (s : Store) :
  update_filter_all (a ++ b)%list s
  = update_filter_all b (update_filter_all a s).
Proof. apply fold_left_app. Qed.

Lemma showCompleted_untouched (calls : list PartialFilter.t) :
  forall s,
    Forall (fun c => PartialFilter.showCompleted c = None) calls ->
    TaskFilter.showCompleted (getFilter (update_filter_all calls s))
    = TaskFilter.showCompleted (getFilter s).
Proof. field_untouched calls. Qed.

Lemma priority_untouched (calls : list PartialFilter.t) :
  forall s,
    Forall (fun c => PartialFilter.priority c = None) calls ->
    TaskFilter.priority (getFilter (update_filter_all calls s))
    = TaskFilter.priority (getFilter s).
Proof. field_untouched calls. Qed.

Lemma searchTerm_untouched (calls : list PartialFilter.t) :
  forall s,
    Forall (fun c => PartialFilter.searchTerm c = None) calls ->
    TaskFilter.searchTerm (getFilter (update_filter_all calls s))
    = TaskFilter.searchTerm (getFilter s).
Proof. field_untouched calls. Qed.

(** C7: after [updateFilter(filter)] each field of the filter has the value
    supplied for it when [filter] names it and its prior value otherwise,
    and the tasks are not touched; and in any sequence of [updateFilter]
    calls, a value that a call gives to a field is still there at the end
    unless a later call names that same field. *)
Theorem updateFilter_merges_fields
        (s : Store) (filter : PartialFilter.t)
        (before after : list PartialFilter.t) :
  let f := getFilter s in
  let f' := getFilter (updateFilter filter s) in
  let final :=
    getFilter (update_filter_all (before ++ filter :: after)%list s) in
  match PartialFilter.showCompleted filter with
  | Some v => TaskFilter.showCompleted f' = v
  | None => TaskFilter.showCompleted f' = TaskFilter.showCompleted f
  end /\
  match PartialFilter.priority filter with
  | Some v => TaskFilter.priority f' = v
  | None => TaskFilter.priority f' = TaskFilter.priority f
  end /\
  match PartialFilter.searchTerm filter with
  | Some v => TaskFilter.searchTerm f' = v
  | None => TaskFilter.searchTerm f' = TaskFilter.searchTerm f
  end /\
  tasks (updateFilter filter s) = tasks s /\
  (forall v,
      PartialFilter.showCompleted filter = Some v ->
      Forall (fun c => PartialFilter.showCompleted c = None) after ->
      TaskFilter.showCompleted final = v) /\
  (forall v,
      PartialFilter.priority filter = Some v ->
      Forall (fun c => PartialFilter.priority c = None) after ->
      TaskFilter.priority final = v) /\
  (forall v,
      PartialFilter.searchTerm filter = Some v ->
      Forall (fun c => PartialFilter.searchTerm c = None) after ->
      TaskFilter.searchTerm final = v).
Proof.
  cbn zeta.
  replace (update_filter_all (before ++ filter :: after)%list s)
    with (update_filter_all after
            (updateFilter filter (update_filter_all before s)))
    by (rewrite update_filter_all_app; reflexivity).
  repeat split.
  - destruct (PartialFilter.showCompleted filter) eqn:E; simpl; rewrite E;
      reflexivity.
  - destruct (PartialFilter.priority filter) eqn:E; simpl; rewrite E;
      reflexivity.
  - destruct (PartialFilter.searchTerm filter) eqn:E; simpl; rewrite E;
      reflexivity.
  - intros v Hv Hafter. rewrite showCompleted_untouched by exact Hafter.
    simpl. rewrite Hv. reflexivity.
  - intros v Hv Hafter. rewrite priority_untouched by exact Hafter.
    simpl. rewrite Hv. reflexivity.
  - intros v Hv Hafter. rewrite searchTerm_untouched by exact Hafter.
    simpl. rewrite Hv. reflexivity.
Qed.

Lemma updateFilter_merges_fields_on_seed :
  TaskFilter.searchTerm
    (getFilter
       (update_filter_all
          [only_searchTerm "initial"; only_showCompleted false] seed))
  = "initial" /\
  TaskFilter.showCompleted
    (getFilter
       (update_filter_all
          [only_searchTerm "initial"; only_showCompleted false] seed))
  = false.
Proof.
  split.
  - apply (updateFilter_merges_fields seed (only_searchTerm "initial")
             [] [only_showCompleted false]).
    + reflexivity.
    + repeat constructor.
  - apply (updateFilter_merges_fields seed (only_showCompleted false)
             [only_searchTerm "initial"] []).
    + reflexivity.
    + constructor.
Defined.

(** ** C8: runs of [addTask] from the seeded store *)





(** ** C9: clearing the priority constraint *)

Lemma or_undefined_id (p : option TaskPriority) :
  TaskListComponent.or_undefined p = p.
Proof.
  unfold TaskListComponent.or_undefined.
  destruct p as [p|]; [rewrite truthy_priority_some|]; reflexivity.
Qed.

(** C9: a partial record whose [priority] key is present with the value
    [undefined] makes the filter's priority absent, whatever it was; this
    is the record the task-list component sends when its selected priority
    is [null], and what it sends otherwise sets the selected priority. *)
Theorem updateFilter_undefined_clears_priority
        (s : Store) (filter : PartialFilter.t)
        (c : TaskListComponent.t) :
  (PartialFilter.priority filter = Some None ->
   TaskFilter.priority (getFilter (updateFilter filter s)) = None) /\
  TaskFilter.priority (getFilter (TaskListComponent.updateFilter c s))
  = TaskListComponent.selectedPriority c.
Proof.
  split.
  - intros H. simpl. rewrite H. reflexivity.
  - simpl. apply or_undefined_id.
Qed.

Lemma updateFilter_undefined_clears_priority_on_seed :
  TaskFilter.priority
    (getFilter (updateFilter (only_priority (Some HIGH)) seed)) = Some HIGH /\
  TaskFilter.priority
    (getFilter
       (updateFilter (only_priority None)
                     (updateFilter (only_priority (Some HIGH)) seed)))
  = None.
Proof.
  split; [reflexivity |].
  apply (proj1 (updateFilter_undefined_clears_priority
                  (updateFilter (only_priority (Some HIGH)) seed)
                  (only_priority None)
                  (TaskListComponent.mk "" true None))).
  reflexivity.
Defined.

(** ** C10: what the calls leave alone *)

(** C10: [updateTask] and [toggleTask] keep the length of the sequence and
    put at every position the task that was there, changed only if it holds
    the id of the call; [deleteTask] keeps exactly the tasks whose id
    differs from its argument, unchanged and in their prior order. *)
Theorem other_tasks_keep_place
        (s : Store) (id : string) (updates : PartialTask.t) :
  List.length (tasks (updateTask id updates s)) = List.length (tasks s) /\
  List.length (tasks (toggleTask id s)) = List.length (tasks s) /\
  (forall i task,
      nth_error (tasks s) i = Some task ->
      exists task_u task_t,
        nth_error (tasks (updateTask id updates s)) i = Some task_u /\
        nth_error (tasks (toggleTask id s)) i = Some task_t /\
        (Task.id task <> id -> task_u = task /\ task_t = task) /\
        (Task.id task = id ->
         task_u = spread_task task updates /\ task_t = flip_completed task)) /\
  kept_in_order (fun task => Task.id task <> id)
                (tasks s) (tasks (deleteTask id s)).
Proof.
  unfold tasks, updateTask, toggleTask, deleteTask. cbn [_tasks].
  rewrite !length_map. repeat split.
  - intros i task Hi.
    rewrite (map_on_id_nth (fun x => spread_task x updates) id _ i task Hi).
    rewrite (map_on_id_nth flip_completed id _ i task Hi).
    eexists. eexists. split; [reflexivity | split; [reflexivity |]].
    destruct (String.eqb_spec (Task.id task) id) as [E|E]; split;
      intros H; try contradiction; split; reflexivity.
  - apply kept_in_order_filter. intros task.
    rewrite negb_true_iff.
    destruct (String.eqb_spec (Task.id task) id); split; congruence.
Qed.

Lemma other_tasks_keep_place_on_seed :
  List.length (tasks (updateTask "1" (only_title "X") seed)) = 2 /\
  (exists task_u task_t,
      nth_error (tasks (updateTask "1" (only_title "X") seed)) 1
      = Some task_u /\
      nth_error (tasks (toggleTask "1" seed)) 1 = Some task_t /\
      task_u = task_t /\
      nth_error (tasks seed) 1 = Some task_u) /\
  List.map Task.id (tasks (deleteTask "1" seed)) = ["2"].
Proof.
  destruct (other_tasks_keep_place seed "1" (only_title "X"))
    as [Hlen [_ [Hnth _]]].
  split; [exact Hlen | split; [| reflexivity]].
  destruct (Hnth 1
              {| Task.id := "2";
                 Task.title := "Implement Standalone Components";
                 Task.description := "Create components without NgModule";
                 Task.completed := true;
                 Task.priority := MEDIUM;
                 Task.createdAt := (1000 - day_ms)%Z;
                 Task.dueDate := None |}
              eq_refl)
    as [task_u [task_t [Hu [Ht [Hother _]]]]].
  exists task_u, task_t.
  destruct Hother as [Eu Et]; [discriminate |].
  split; [exact Hu | split; [exact Ht | split]].
  - congruence.
  - rewrite Eu. reflexivity.
Defined.

(** ** The service's own test scenarios, run on the model *)

Example seed_counts : totalCount seed = 2 /\ completedCount seed = 1.
Proof. split; reflexivity. Qed.

Example seed_hide_completed :
  List.map Task.id
           (filteredTasks toLowerCase_ascii
                          (updateFilter (only_showCompleted false) seed))
  = ["1"].
Proof. reflexivity. Qed.

Example seed_search_signals :
  List.map Task.id
           (filteredTasks toLowerCase_ascii
                          (updateFilter (only_searchTerm "signals") seed))
  = ["1"].
Proof. reflexivity. Qed.

Example seed_priority_high :
  List.map Task.id
           (filteredTasks toLowerCase_ascii
                          (updateFilter (only_priority (Some HIGH)) seed))
  = ["1"].
Proof. reflexivity. Qed.

Example seed_add_completed :
  completedCount (add_all [call_done] seed) = 2 /\
  totalCount (add_all [call_done] seed) = 3.
Proof. split; reflexivity. Qed.

(** ** Further properties of the service *)

Lemma flip_completed_twice (task : Task.t) :
  flip_completed (flip_completed task) = task.
Proof.
  destruct task; unfold flip_completed; simpl.
  rewrite negb_involutive. reflexivity.
Qed.

(** X1: [toggleTask(id)] twice gives back the store it started from, whatever
    the store holds. *)
Theorem toggleTask_twice (s : Store) (id : string) :
  toggleTask id (toggleTask id s) = s.
Proof.
  unfold toggleTask. cbn [_tasks _filter]. rewrite map_map.
  rewrite <- (store_eta s) at 3. f_equal.
  rewrite <- (map_id (_tasks s)) at 2.
  apply map_ext. intros task.
  destruct (String.eqb (Task.id task) id) eqn:E.
  - change (Task.id (flip_completed task)) with (Task.id task).
    rewrite E. apply flip_completed_twice.
  - rewrite E. reflexivity.
Qed.

Lemma deleteTask_not_held (s : Store) (id : string) :
  holds_id id (deleteTask id s) = false.
Proof.
  apply holds_id_false. unfold ids, tasks, deleteTask. cbn [_tasks].
  intros Hin. apply in_map_iff in Hin. destruct Hin as [task [Hid Hin]].
  apply filter_In in Hin. destruct Hin as [_ Hne].
  rewrite negb_true_iff in Hne. apply String.eqb_neq in Hne. congruence.
Qed.

(** X2: After [deleteTask(id)] no task holds [id], however many did, and a
    second [deleteTask(id)] changes nothing. *)
Theorem deleteTask_removes_every_holder (s : Store) (id : string) :
  holds_id id (deleteTask id s) = false /\
  deleteTask id (deleteTask id s) = deleteTask id s.
Proof.
  split; [apply deleteTask_not_held |].
  pose proof (deleteTask_not_held s id) as H.
  apply holds_id_false in H. unfold ids, tasks in H.
  unfold deleteTask at 1. rewrite filter_on_id_absent by exact H.
  apply store_eta.
Qed.

Lemma delete_one_length (id : string) (l : list Task.t) :
  NoDup (List.map Task.id l) ->
  In id (List.map Task.id l) ->
  S (List.length
       (List.filter (fun task => negb (String.eqb (Task.id task) id)) l))
  = List.length l.
Proof.
  induction l as [|x l IH]; simpl; intros Hnd Hin.
  - contradiction.
  - inversion Hnd as [|y ys Hnotin Hnd']; subst.
    destruct (String.eqb_spec (Task.id x) id) as [E|E]; simpl.
    + subst id. rewrite filter_on_id_absent by exact Hnotin. reflexivity.
    + f_equal. apply IH; [exact Hnd' |].
      destruct Hin as [Hin|Hin]; [contradiction | exact Hin].
Qed.

(** X3: In a store with unique ids, [deleteTask] on an id that is held takes
    [totalCount()] down by exactly one. *)
Theorem deleteTask_decrements_totalCount (s : Store) (id : string) :
  unique_ids s ->
  holds_id id s = true ->
  S (totalCount (deleteTask id s)) = totalCount s.
Proof.
  intros Hnd Hin. apply holds_id_In in Hin.
  unfold totalCount, deleteTask. cbn [_tasks].
  apply delete_one_length; assumption.
Qed.

Lemma deleteTask_decrements_totalCount_on_seed :
  S (totalCount (deleteTask "1" seed)) = totalCount seed.
Proof.
  apply (deleteTask_decrements_totalCount seed "1").
  - apply unique_ids_init.
  - reflexivity.
Defined.

(** X4: [deleteTask] on the id that [addTask] has just assigned undoes the
    [addTask], provided no task held that id before. *)
Theorem deleteTask_undoes_addTask
        (s : Store) (uuid : string) (now : Date) (task : TaskDraft.t) :
  holds_id uuid s = false ->
  deleteTask uuid (addTask uuid now task s) = s.
Proof.
  intros H. apply holds_id_false in H. unfold ids, tasks in H.
  unfold deleteTask, addTask. cbn [_tasks _filter].
  rewrite filter_app, filter_on_id_absent by exact H.
  cbn [List.filter Task.id]. rewrite String.eqb_refl. cbn [negb].
  rewrite app_nil_r. apply store_eta.
Qed.

Lemma deleteTask_undoes_addTask_on_seed :
  deleteTask "3f0c" (addTask "3f0c" 2000%Z draft_test seed) = seed.
Proof.
  apply (deleteTask_undoes_addTask seed "3f0c" 2000%Z draft_test).
  reflexivity.
Defined.

Lemma filter_length_all {A : Type} (f : A -> bool) (l : list A) :
  List.length (List.filter f l) = List.length l <->
  Forall (fun x => f x = true) l.
Proof.
  induction l as [|x l IH]; simpl.
  - split; [constructor | reflexivity].
  - pose proof (filter_length_le f l) as Hle.
    destruct (f x) eqn:E; simpl.
    + split.
      * intros H. constructor; [exact E | apply IH; lia].
      * intros H. inversion H; subst. f_equal. apply IH. assumption.
    + split.
      * intros H. lia.
      * intros H. inversion H; subst. congruence.
Qed.

(** X5: [completedCount()] never exceeds [totalCount()], and the two are equal
    exactly when every task is completed. *)
Theorem completedCount_bounded (s : Store) :
  completedCount s <= totalCount s /\
  (completedCount s = totalCount s <->
   Forall (fun task => Task.completed task = true) (tasks s)).
Proof.
  unfold completedCount, totalCount, tasks. split.
  - apply filter_length_le.
  - apply filter_length_all.
Qed.

(** X6: After [addTask] the derived views follow: [completedCount()] goes up by
    one exactly when the draft is completed, and [filteredTasks()] gets the
    new task at its end exactly when the task passes the active filter. *)
Theorem addTask_updates_views
        (toLowerCase : string -> string)
        (s : Store) (uuid : string) (now : Date) (task : TaskDraft.t) :
  let s' := addTask uuid now task s in
  completedCount s'
  = completedCount s + (if TaskDraft.completed task then 1 else 0) /\
  filteredTasks toLowerCase s'
  = (filteredTasks toLowerCase s ++
     (if filter_closure toLowerCase (getFilter s) (new_task uuid now task)
      then [new_task uuid now task] else []))%list.
Proof.
  cbn zeta. unfold completedCount, filteredTasks, addTask, getFilter.
  cbn [_tasks _filter]. rewrite !filter_app, length_app.
  cbn [List.filter Task.completed]. split.
  - destruct (TaskDraft.completed task); reflexivity.
  - reflexivity.
Qed.

Lemma toggle_one_count (id : string) (c : bool) (l : list Task.t) :
  NoDup (List.map Task.id l) ->
  (exists task, In task l /\ Task.id task = id /\ Task.completed task = c) ->
  List.length
    (List.filter (fun task => Task.completed task)
       (List.map (fun task => if String.eqb (Task.id task) id
                              then flip_completed task else task) l))
  + (if c then 1 else 0)
  = List.length (List.filter (fun task => Task.completed task) l)
    + (if c then 0 else 1).
Proof.
  induction l as [|x l IH]; intros Hnd [task [Hin [Hid Hc]]].
  - contradiction.
  - cbn [List.map] in *. inversion Hnd as [|y ys Hnotin Hnd']; subst.
    destruct (String.eqb_spec (Task.id x) (Task.id task)) as [E|E].
    + assert (Hx : x = task).
      { destruct Hin as [Hx|Hin]; [exact Hx |].
        exfalso. apply Hnotin. rewrite E. apply in_map. exact Hin. }
      subst x. rewrite map_on_id_absent by exact Hnotin.
      cbn [List.filter flip_completed Task.completed].
      destruct (Task.completed task); simpl; lia.
    + assert (Hrest : In task l).
      { destruct Hin as [Hx|Hin]; [congruence | exact Hin]. }
      specialize (IH Hnd' (ex_intro _ task (conj Hrest (conj eq_refl eq_refl)))).
      cbn [List.filter]. destruct (Task.completed x); simpl; lia.
Qed.

(** X7: In a store with unique ids, [toggleTask] on the id of a held task moves
    [completedCount()] by exactly one: down when the task was completed, up
    when it was not. *)
Theorem toggleTask_moves_completedCount (s : Store) (task : Task.t) :
  unique_ids s ->
  In task (tasks s) ->
  if Task.completed task
  then S (completedCount (toggleTask (Task.id task) s)) = completedCount s
  else completedCount (toggleTask (Task.id task) s) = S (completedCount s).
Proof.
  intros Hnd Hin.
  pose proof (toggle_one_count (Task.id task) (Task.completed task)
                (_tasks s) Hnd
                (ex_intro _ task (conj Hin (conj eq_refl eq_refl)))) as H.
  unfold completedCount, toggleTask. cbn [_tasks].
  destruct (Task.completed task); lia.
Qed.

Lemma toggleTask_moves_completedCount_on_seed :
  completedCount (toggleTask "1" seed) = S (completedCount seed).
Proof.
  apply (toggleTask_moves_completedCount seed
           {| Task.id := "1";
              Task.title := "Learn Angular 16 Signals";
              Task.description := "Understand the new signals API";
              Task.completed := false;
              Task.priority := HIGH;
              Task.createdAt := 1000%Z;
              Task.dueDate := Some (1000 + 7 * day_ms)%Z |}).
  - apply unique_ids_init.
  - left. reflexivity.
Defined.

(** X8: With a filter that shows completed tasks, has no priority and an empty
    search term (the filter of a new session), [filteredTasks()] is
    [tasks()]. *)
Theorem open_filter_shows_all (toLowerCase : string -> string) (s : Store) :
  TaskFilter.showCompleted (getFilter s) = true ->
  TaskFilter.priority (getFilter s) = None ->
  TaskFilter.searchTerm (getFilter s) = "" ->
  filteredTasks toLowerCase s = tasks s.
Proof.
  unfold getFilter, filteredTasks, tasks. intros Hc Hp Ht.
  apply forallb_filter_id. apply forallb_forall. intros task _.
  unfold filter_closure. rewrite Hc, Hp, Ht. reflexivity.
Qed.

Lemma open_filter_shows_all_on_seed :
  filteredTasks toLowerCase_ascii (addTask "3f0c" 2000%Z draft_test seed)
  = tasks (addTask "3f0c" 2000%Z draft_test seed).
Proof.
  apply (open_filter_shows_all toLowerCase_ascii
           (addTask "3f0c" 2000%Z draft_test seed)); reflexivity.
Defined.

(** X9: The search looks at the term only through [toLowerCase]: for a
    [toLowerCase] that changes nothing in a string it has produced and
    empties no string (as the real one), searching for a term and for its
    lower-case form give the same view. *)
Theorem search_ignores_case_of_term
        (toLowerCase : string -> string) (s : Store) (term : string) :
  toLowerCase (toLowerCase term) = toLowerCase term ->
  (toLowerCase term = "" -> term = "") ->
  (term = "" -> toLowerCase term = "") ->
  filteredTasks toLowerCase (updateFilter (only_searchTerm term) s)
  = filteredTasks toLowerCase
                  (updateFilter (only_searchTerm (toLowerCase term)) s).
Proof.
  intros Hidem Hne Hempty. unfold filteredTasks, updateFilter.
  cbn [_tasks _filter]. apply filter_ext. intros task.
  unfold filter_closure, spread_filter, only_searchTerm.
  cbn [PartialFilter.showCompleted PartialFilter.priority
       PartialFilter.searchTerm TaskFilter.showCompleted TaskFilter.priority
       TaskFilter.searchTerm spread].
  rewrite Hidem.
  replace (truthy_string (toLowerCase term)) with (truthy_string term);
    [reflexivity |].
  unfold truthy_string. f_equal.
  destruct (String.eqb_spec term "") as [E|E];
    destruct (String.eqb_spec (toLowerCase term) "") as [E'|E'];
    try reflexivity; exfalso; auto.
Qed.

Lemma toLowerCase_ascii_twice (s : string) :
  toLowerCase_ascii (toLowerCase_ascii s) = toLowerCase_ascii s.
Proof.
  induction s as [|c s IH]; [reflexivity |].
  cbn [toLowerCase_ascii]. rewrite IH. f_equal.
  unfold lower_ascii.
  destruct ((65 <=? nat_of_ascii c) && (nat_of_ascii c <=? 90))%nat eqn:E;
    [| rewrite E; reflexivity].
  apply andb_true_iff in E. destruct E as [E1 E2].
  apply Nat.leb_le in E1, E2.
  rewrite nat_ascii_embedding by lia.
  replace ((65 <=? nat_of_ascii c + 32) && (nat_of_ascii c + 32 <=? 90))%nat
    with false; [reflexivity |].
  symmetry. apply andb_false_iff. right. apply Nat.leb_gt. lia.
Qed.

Lemma search_ignores_case_of_term_on_seed :
  filteredTasks toLowerCase_ascii (updateFilter (only_searchTerm "SIGNALS") seed)
  = filteredTasks toLowerCase_ascii
                  (updateFilter (only_searchTerm "signals") seed).
Proof.
  apply (search_ignores_case_of_term toLowerCase_ascii seed "SIGNALS").
  - apply toLowerCase_ascii_twice.
  - discriminate.
  - discriminate.
Defined.

Lemma spread_twice {A : Type} (a : A) (x : option A) :
  spread (spread a x) x = spread a x.
Proof. destruct x; reflexivity. Qed.

Lemma spread_spread_key {A : Type} (a : A) (x y : option A) :
  spread (spread a x) y = spread a (spread_key x y).
Proof. destruct x, y; reflexivity. Qed.

Lemma spread_task_twice (task : Task.t) (updates : PartialTask.t) :
  spread_task (spread_task task updates) updates = spread_task task updates.
Proof.
  unfold spread_task; simpl. rewrite !spread_twice. reflexivity.
Qed.

Lemma spread_task_partial (task : Task.t) (first second : PartialTask.t) :
  spread_task (spread_task task first) second
  = spread_task task (spread_partial_task first second).
Proof.
  unfold spread_task, spread_partial_task; simpl.
  rewrite !spread_spread_key. reflexivity.
Qed.

(** X10: [updateTask] with the same arguments twice is [updateTask] once, also
    when the partial record changes the id. *)
Theorem updateTask_twice (s : Store) (id : string) (updates : PartialTask.t) :
  updateTask id updates (updateTask id updates s) = updateTask id updates s.
Proof.
  unfold updateTask. cbn [_tasks _filter]. f_equal.
  rewrite map_map. apply map_ext. intros task.
  destruct (String.eqb (Task.id task) id) eqn:E; [| rewrite E; reflexivity].
  destruct (String.eqb (Task.id (spread_task task updates)) id);
    [apply spread_task_twice | reflexivity].
Qed.

(** X11: Two [updateTask] calls on one id: when the first one leaves the id as it
    is, they amount to one call with the two partial records spread into
    one, the later winning; when the first one changes the id, the second
    finds no task and is lost.  The empty partial record changes nothing. *)
Theorem updateTask_composes
        (s : Store) (id : string) (first second : PartialTask.t) :
  (PartialTask.id first = None \/ PartialTask.id first = Some id ->
   updateTask id second (updateTask id first s)
   = updateTask id (spread_partial_task first second) s) /\
  (forall id', PartialTask.id first = Some id' -> id' <> id ->
   updateTask id second (updateTask id first s) = updateTask id first s) /\
  updateTask id PartialTask.empty s = s.
Proof.
  split; [| split].
  - intros Hid. unfold updateTask. cbn [_tasks _filter]. f_equal.
    rewrite map_map. apply map_ext. intros task.
    destruct (String.eqb (Task.id task) id) eqn:E; [| rewrite E; reflexivity].
    assert (Hkeep : Task.id (spread_task task first) = Task.id task).
    { cbn [spread_task Task.id]. apply String.eqb_eq in E.
      destruct Hid as [-> | ->]; simpl; congruence. }
    rewrite Hkeep, E. apply spread_task_partial.
  - intros id' Hid Hne. unfold updateTask. cbn [_tasks _filter]. f_equal.
    rewrite map_map. apply map_ext. intros task.
    destruct (String.eqb (Task.id task) id) eqn:E; [| rewrite E; reflexivity].
    cbn [spread_task Task.id]. rewrite Hid. cbn [spread].
    apply String.eqb_neq in Hne. rewrite Hne. reflexivity.
  - unfold updateTask.
    replace (List.map (fun task => if String.eqb (Task.id task) id
                                   then spread_task task PartialTask.empty
                                   else task) (_tasks s))
      with (_tasks s); [apply store_eta |].
    rewrite <- (map_id (_tasks s)) at 1. apply map_ext. intros task.
    destruct (String.eqb (Task.id task) id); [| reflexivity].
    destruct task; reflexivity.
Qed.

Lemma updateTask_composes_on_seed :
  updateTask "1" (only_completed true) (updateTask "1" (only_title "X") seed)
  = updateTask "1"
               (spread_partial_task (only_title "X") (only_completed true))
               seed /\
  updateTask "1" (only_title "X") (updateTask "1" (only_id "7") seed)
  = updateTask "1" (only_id "7") seed.
Proof.
  split.
  - apply (proj1 (updateTask_composes seed "1" (only_title "X")
                    (only_completed true))).
    left. reflexivity.
  - apply (proj1 (proj2 (updateTask_composes seed "1" (only_id "7")
                           (only_title "X"))) "7").
    + reflexivity.
    + discriminate.
Defined.

Lemma spread_filter_partial (f : TaskFilter.t) (first second : PartialFilter.t) :
  spread_filter (spread_filter f first) second
  = spread_filter f (spread_partial_filter first second).
Proof.
  unfold spread_filter, spread_partial_filter; simpl.
  rewrite !spread_spread_key. reflexivity.
Qed.

(** X12: Two [updateFilter] calls amount to one call with the two partial
    records spread into one, the later winning; so a call repeated changes
    nothing more, and the empty partial record changes nothing. *)
Theorem updateFilter_composes (s : Store) (first second : PartialFilter.t) :
  updateFilter second (updateFilter first s)
  = updateFilter (spread_partial_filter first second) s /\
  updateFilter first (updateFilter first s) = updateFilter first s /\
  updateFilter PartialFilter.empty s = s.
Proof.
  unfold updateFilter. cbn [_tasks _filter]. split; [| split].
  - rewrite spread_filter_partial. reflexivity.
  - f_equal. unfold spread_filter; simpl. rewrite !spread_twice. reflexivity.
  - destruct s as [l [a b c]]. reflexivity.
Qed.

Lemma step_tasks_only (s1 s2 : Store) (op : Op) :
  tasks s1 = tasks s2 ->
  tasks (step s1 op) =
  tasks (match op with UpdateFilter _ => s2 | _ => step s2 op end).
Proof.
  unfold tasks. intros E.
  destruct op; cbn [step addTask updateTask deleteTask toggleTask
                    updateFilter _tasks]; rewrite E; reflexivity.
Qed.

Lemma run_tasks_only (ops : list Op) :
  forall s1 s2,
    tasks s1 = tasks s2 -> tasks (run s1 ops) = tasks (run s2 (task_calls ops)).
Proof.
  induction ops as [|op ops IH]; intros s1 s2 E; [exact E |].
  cbn [run fold_left task_calls List.filter].
  pose proof (step_tasks_only s1 s2 op E) as Hstep.
  destruct op; cbn [fold_left]; apply IH; exact Hstep.
Qed.

Lemma run_filter_only (ops : list Op) :
  forall s1 s2,
    getFilter s1 = getFilter s2 ->
    getFilter (run s1 ops)
    = getFilter (update_filter_all (filter_calls ops) s2).
Proof.
  induction ops as [|op ops IH]; intros s1 s2 E; [exact E |].
  cbn [run fold_left filter_calls flat_map].
  destruct op; cbn [app update_filter_all fold_left]; apply IH;
    unfold getFilter in *;
    cbn [step addTask updateTask deleteTask toggleTask updateFilter _filter];
    rewrite ?E; reflexivity.
Qed.

(** X13: The two signals do not meet: after any run of calls, the filter is what
    the [updateFilter] calls of the run alone produce, and the task
    sequence is what the run without its [updateFilter] calls produces. *)
Theorem tasks_and_filter_are_separate (s : Store) (ops : list Op) :
  getFilter (run s ops) = getFilter (update_filter_all (filter_calls ops) s) /\
  tasks (run s ops) = tasks (run s (task_calls ops)).
Proof.
  split.
  - apply run_filter_only. reflexivity.
  - apply run_tasks_only. reflexivity.
Qed.

Lemma filter_swap {A : Type} (f g : A -> bool) (l : list A) :
  List.filter f (List.filter g l) = List.filter g (List.filter f l).
Proof.
  induction l as [|x l IH]; [reflexivity |]. simpl.
  destruct (f x) eqn:Ef, (g x) eqn:Eg; simpl; rewrite ?Ef, ?Eg, IH;
    reflexivity.
Qed.

(** X14: [deleteTask(id)] takes the tasks holding [id] out of the filtered view
    and leaves the rest of the view as it is. *)
Theorem deleteTask_in_filtered_view
        (toLowerCase : string -> string) (s : Store) (id : string) :
  filteredTasks toLowerCase (deleteTask id s)
  = List.filter (fun task => negb (String.eqb (Task.id task) id))
                (filteredTasks toLowerCase s).
Proof.
  unfold filteredTasks, deleteTask. cbn [_tasks _filter]. apply filter_swap.
Qed.

Lemma step_totalCount (s : Store) (op : Op) :
  totalCount (step s op)
  <= totalCount s + (match op with AddTask _ _ _ => 1 | _ => 0 end) /\
  (match op with DeleteTask _ => False | _ => True end ->
   totalCount (step s op)
   = totalCount s + (match op with AddTask _ _ _ => 1 | _ => 0 end)).
Proof.
  unfold totalCount.
  destruct op; cbn [step addTask updateTask deleteTask toggleTask
                    updateFilter _tasks];
    rewrite ?length_map, ?length_app; simpl; split; try lia; try tauto.
  pose proof (filter_length_le
                (fun task => negb (String.eqb (Task.id task) id)) (_tasks s)).
  lia.
Qed.

(** X15: Only [addTask] makes the task sequence longer: after any run of calls,
    [totalCount()] is at most the count before plus the number of [addTask]
    calls, and exactly that when the run has no [deleteTask]. *)
Theorem totalCount_grows_by_adds_only (s : Store) (ops : list Op) :
  let adds :=
    List.length
      (List.filter (fun op => match op with AddTask _ _ _ => true | _ => false end)
                   ops) in
  totalCount (run s ops) <= totalCount s + adds /\
  (Forall (fun op => match op with DeleteTask _ => False | _ => True end) ops ->
   totalCount (run s ops) = totalCount s + adds).
Proof.
  cbn zeta. revert s. induction ops as [|op ops IH]; intros s.
  - simpl. split; [lia | intros _; lia].
  - cbn [run fold_left]. fold (run (step s op) ops).
    destruct (IH (step s op)) as [Hle Heq].
    destruct (step_totalCount s op) as [Hle1 Heq1].
    split.
    + destruct op; cbn [List.filter List.length] in *; lia.
    + intros Hall. inversion Hall as [|op' ops' Hop Hrest]; subst.
      specialize (Heq Hrest). specialize (Heq1 Hop).
      destruct op; cbn [List.filter List.length] in *; lia.
Qed.

Lemma totalCount_grows_by_adds_only_on_seed :
  totalCount
    (run seed [ AddTask "3f0c" 2000%Z draft_test;
                ToggleTask "1";
                UpdateFilter (only_showCompleted false);
                UpdateTask "2" (only_title "X") ])
  = 3.
Proof.
  apply (proj2 (totalCount_grows_by_adds_only seed
                  [ AddTask "3f0c" 2000%Z draft_test;
                    ToggleTask "1";
                    UpdateFilter (only_showCompleted false);
                    UpdateTask "2" (only_title "X") ])).
  repeat constructor.
Defined.

(** ** The task item: [isOverdue] *)

(** X16: [isOverdue()] answers [true] exactly for a task that is not completed
    and has a due date strictly before the current time; at the due time
    itself the task is not overdue yet. *)
Theorem isOverdue_exactly (now : Date) (task : Task.t) :
  TaskItemComponent.isOverdue now task = true <->
  Task.completed task = false /\
  exists dueDate, Task.dueDate task = Some dueDate /\ (dueDate < now)%Z.
Proof.
  unfold TaskItemComponent.isOverdue.
  destruct (Task.dueDate task) as [d|]; destruct (Task.completed task);
    cbn [orb]; split.
  - discriminate.
  - intros [H _]. discriminate.
  - intros H. split; [reflexivity |]. exists d. split; [reflexivity |].
    apply Z.gtb_lt in H. exact H.
  - intros [_ [d' [E H]]]. inversion E; subst. apply Z.gtb_lt. exact H.
  - discriminate.
  - intros [H _]. discriminate.
  - discriminate.
  - intros [_ [d' [E _]]]. discriminate.
Qed.

(** X17: Once overdue, a task stays overdue as time passes (as long as the task
    itself is not changed). *)
Theorem isOverdue_stays (now later : Date) (task : Task.t) :
  TaskItemComponent.isOverdue now task = true ->
  (now <= later)%Z ->
  TaskItemComponent.isOverdue later task = true.
Proof.
  unfold TaskItemComponent.isOverdue.
  destruct (Task.dueDate task) as [d|]; destruct (Task.completed task);
    cbn [orb]; try discriminate.
  intros H Hle. apply Z.gtb_lt in H. apply Z.gtb_lt. lia.
Qed.

Lemma isOverdue_stays_on_seed :
  TaskItemComponent.isOverdue
    (1000 + 9 * day_ms)%Z
    {| Task.id := "1";
       Task.title := "Learn Angular 16 Signals";
       Task.description := "Understand the new signals API";
       Task.completed := false;
       Task.priority := HIGH;
       Task.createdAt := 1000%Z;
       Task.dueDate := Some (1000 + 7 * day_ms)%Z |}
  = true.
Proof.
  apply (isOverdue_stays (1000 + 8 * day_ms)%Z).
  - reflexivity.
  - unfold day_ms. lia.
Defined.

(** X18: [toggleTask] on the id of an overdue task leaves at its position a task
    that is not overdue: it is completed now. *)
Theorem toggleTask_clears_overdue
        (now : Date) (s : Store) (i : nat) (task : Task.t) :
  nth_error (tasks s) i = Some task ->
  TaskItemComponent.isOverdue now task = true ->
  exists task',
    nth_error (tasks (toggleTask (Task.id task) s)) i = Some task' /\
    Task.completed task' = true /\
    TaskItemComponent.isOverdue now task' = false.
Proof.
  intros Hi Hover. exists (flip_completed task).
  assert (Hc : Task.completed task = false).
  { unfold TaskItemComponent.isOverdue in Hover.
    destruct (Task.completed task); [| reflexivity].
    rewrite orb_true_r in Hover. discriminate. }
  assert (Hdue : exists d, Task.dueDate task = Some d).
  { unfold TaskItemComponent.isOverdue in Hover.
    destruct (Task.dueDate task) as [d|]; [exists d; reflexivity |].
    discriminate. }
  destruct Hdue as [d Hd].
  split; [| split].
  - unfold tasks, toggleTask in *. cbn [_tasks].
    rewrite (map_on_id_nth flip_completed (Task.id task) _ i task Hi).
    rewrite String.eqb_refl. reflexivity.
  - cbn [flip_completed Task.completed]. rewrite Hc. reflexivity.
  - unfold TaskItemComponent.isOverdue.
    cbn [flip_completed Task.completed Task.dueDate].
    rewrite Hd, Hc. reflexivity.
Qed.

Lemma toggleTask_clears_overdue_on_seed :
  exists task',
    nth_error (tasks (toggleTask "1" seed)) 0 = Some task' /\
    Task.completed task' = true /\
    TaskItemComponent.isOverdue (1000 + 8 * day_ms)%Z task' = false.
Proof.
  apply (toggleTask_clears_overdue
           (1000 + 8 * day_ms)%Z seed 0
           {| Task.id := "1";
              Task.title := "Learn Angular 16 Signals";
              Task.description := "Understand the new signals API";
              Task.completed := false;
              Task.priority := HIGH;
              Task.createdAt := 1000%Z;
              Task.dueDate := Some (1000 + 7 * day_ms)%Z |});
    reflexivity.
Defined.

(** ** The task list: its handlers *)

Lemma or_null_id (p : option TaskPriority) : TaskList.or_null p = p.
Proof.
  unfold TaskList.or_null.
  destruct p as [p|]; [rewrite truthy_priority_some|]; reflexivity.
Qed.

(** X19: A task list built on a store and writing its controls back at once
    leaves the store as it is: the constructor reads exactly what
    [updateFilter()] writes. *)
Theorem constructor_then_updateFilter (s : Store) :
  TaskListComponent.updateFilter (TaskList.constructor s) s = s.
Proof.
  unfold TaskListComponent.updateFilter, TaskList.constructor, updateFilter,
    getFilter, spread_filter.
  cbn [PartialFilter.showCompleted PartialFilter.priority
       PartialFilter.searchTerm TaskListComponent.searchTerm
       TaskListComponent.showCompleted TaskListComponent.selectedPriority
       spread].
  rewrite or_undefined_id, or_null_id.
  destruct s as [l [a b c]]. reflexivity.
Qed.

(** The filter a store holds after the task list has written its
    controls. *)
Lemma updateFilter_writes_controls (c : TaskListComponent.t) (s : Store) :
  tasks (TaskListComponent.updateFilter c s) = tasks s /\
  getFilter (TaskListComponent.updateFilter c s)
  = {| TaskFilter.showCompleted := TaskListComponent.showCompleted c;
       TaskFilter.priority := TaskListComponent.selectedPriority c;
       TaskFilter.searchTerm := TaskListComponent.searchTerm c |} /\
  TaskList.constructor (TaskListComponent.updateFilter c s) = c.
Proof.
  unfold TaskListComponent.updateFilter, TaskList.constructor, updateFilter,
    getFilter, spread_filter, tasks.
  cbn [_tasks _filter PartialFilter.showCompleted PartialFilter.priority
       PartialFilter.searchTerm spread TaskFilter.showCompleted
       TaskFilter.priority TaskFilter.searchTerm].
  rewrite or_null_id, or_undefined_id. destruct c. repeat split.
Qed.

(** X20: Each of the three change handlers of the task list stores the value of
    its event in its control, leaves the tasks alone and writes all three
    controls into the filter of the service: afterwards the filter is
    exactly the controls, whatever it was before the call, and a
    constructor run on the store would read the same controls back. *)
Theorem change_handlers_write_all_controls
        (c : TaskListComponent.t) (s : Store)
        (value : string) (checked : bool) (choice : option TaskPriority) :
  let after (r : TaskListComponent.t * Store) (expected : TaskListComponent.t) :=
    fst r = expected /\
    tasks (snd r) = tasks s /\
    getFilter (snd r)
    = {| TaskFilter.showCompleted := TaskListComponent.showCompleted expected;
         TaskFilter.priority := TaskListComponent.selectedPriority expected;
         TaskFilter.searchTerm := TaskListComponent.searchTerm expected |} /\
    TaskList.constructor (snd r) = expected in
  after (TaskList.onSearchChange value c s)
        {| TaskListComponent.searchTerm := value;
           TaskListComponent.showCompleted := TaskListComponent.showCompleted c;
           TaskListComponent.selectedPriority :=
             TaskListComponent.selectedPriority c |} /\
  after (TaskList.onShowCompletedChange checked c s)
        {| TaskListComponent.searchTerm := TaskListComponent.searchTerm c;
           TaskListComponent.showCompleted := checked;
           TaskListComponent.selectedPriority :=
             TaskListComponent.selectedPriority c |} /\
  after (TaskList.onPriorityFilterChange choice c s)
        {| TaskListComponent.searchTerm := TaskListComponent.searchTerm c;
           TaskListComponent.showCompleted := TaskListComponent.showCompleted c;
           TaskListComponent.selectedPriority := choice |}.
Proof.
  cbn zeta.
  unfold TaskList.onSearchChange, TaskList.onShowCompletedChange,
    TaskList.onPriorityFilterChange.
  cbn [fst snd].
  replace (if truthy_string (TaskList.select_value choice) then choice else None)
    with choice
    by (destruct choice as [p|]; [destruct p |]; reflexivity).
  repeat split; apply updateFilter_writes_controls.
Qed.

(** X21: [onEditTask] changes titles only, and only to a trimmed text that is
    not empty: the filter and the ids stay, every task keeps its position
    and all its other fields, and a title that differs from the one before
    is the trimmed answer of the dialog on a task holding the id of the
    edited one.  A cancelled dialog, an answer that trims to nothing and an
    answer equal to the current title leave the store as it is. *)
Theorem onEditTask_changes_titles_only
        (trim : string -> string)
        (answer : option string) (task : Task.t) (s : Store) :
  let s' := TaskList.onEditTask trim answer task s in
  getFilter s' = getFilter s /\
  ids s' = ids s /\
  (forall i task',
      nth_error (tasks s') i = Some task' ->
      exists old,
        nth_error (tasks s) i = Some old /\
        Task.id task' = Task.id old /\
        Task.description task' = Task.description old /\
        Task.completed task' = Task.completed old /\
        Task.priority task' = Task.priority old /\
        Task.dueDate task' = Task.dueDate old /\
        Task.createdAt task' = Task.createdAt old /\
        (Task.title task' = Task.title old \/
         Task.id old = Task.id task /\
         Task.title task' <> "" /\
         exists newTitle,
           answer = Some newTitle /\ Task.title task' = trim newTitle)) /\
  (answer = None \/
   (exists newTitle,
       answer = Some newTitle /\
       (trim newTitle = "" \/ newTitle = Task.title task)) ->
   s' = s).
Proof.
  cbn zeta. unfold TaskList.onEditTask.
  assert (Hsame : forall i task',
             nth_error (tasks s) i = Some task' ->
             exists old,
               nth_error (tasks s) i = Some old /\
               Task.id task' = Task.id old /\
               Task.description task' = Task.description old /\
               Task.completed task' = Task.completed old /\
               Task.priority task' = Task.priority old /\
               Task.dueDate task' = Task.dueDate old /\
               Task.createdAt task' = Task.createdAt old /\
               (Task.title task' = Task.title old \/
                Task.id old = Task.id task /\
                Task.title task' <> "" /\
                exists newTitle,
                  answer = Some newTitle /\ Task.title task' = trim newTitle)).
  { intros i task' H. exists task'. repeat split; auto. }
  destruct answer as [newTitle|].
  2:{ repeat split; auto. }
  destruct (truthy_string newTitle && truthy_string (trim newTitle) &&
            negb (String.eqb newTitle (Task.title task))) eqn:G.
  2:{ repeat split; auto. }
  apply andb_true_iff in G. destruct G as [G Hdiff].
  apply andb_true_iff in G. destruct G as [_ Htrim].
  apply negb_true_iff, String.eqb_neq in Hdiff.
  assert (Hne : trim newTitle <> "").
  { intros E. apply truthy_string_empty in E. congruence. }
  split; [reflexivity | split; [| split]].
  - unfold ids, tasks, updateTask. cbn [_tasks].
    apply map_keeps_ids. intros x _.
    destruct (String.eqb (Task.id x) (Task.id task)); reflexivity.
  - intros i task' H. unfold tasks, updateTask in H. cbn [_tasks] in H.
    rewrite nth_error_map in H.
    destruct (nth_error (_tasks s) i) as [old|] eqn:Hi; [| discriminate].
    cbn [option_map] in H. inversion H as [Htask']. clear H.
    exists old. split; [exact Hi |].
    destruct (String.eqb_spec (Task.id old) (Task.id task)) as [E|E].
    + cbn [spread_task Task.id Task.title Task.description Task.completed
           Task.priority Task.dueDate Task.createdAt PartialTask.id
           PartialTask.title PartialTask.description PartialTask.completed
           PartialTask.priority PartialTask.dueDate PartialTask.createdAt
           spread].
      repeat split; try reflexivity.
      right. split; [exact E | split; [exact Hne |]].
      exists newTitle. split; reflexivity.
    + repeat split; try reflexivity. left. reflexivity.
  - intros [H | [t [Ht [Hblank | Hequal]]]]; [discriminate | |];
      inversion Ht; subst; contradiction.
Qed.

Lemma onEditTask_changes_titles_only_on_seed :
  TaskList.onEditTask trim_ascii (Some "   ")
                      (new_task "1" 0%Z draft_test) seed
  = seed.
Proof.
  apply (proj2 (proj2 (proj2
           (onEditTask_changes_titles_only trim_ascii (Some "   ")
              (new_task "1" 0%Z draft_test) seed)))).
  right. exists "   ". split; [reflexivity |]. left. reflexivity.
Defined.

(** ** The add-task form: submissions in flight *)

Lemma remove_nth_cons {A : Type} (k : nat) (x : A) (l : list A) :
  AddTaskComponent.remove_nth (S k) (x :: l)
  = x :: AddTaskComponent.remove_nth k l.
Proof. reflexivity. Qed.

Lemma remove_nth_count {A : Type} (f : A -> bool) (k : nat) :
  forall (l : list A) (x : A),
    nth_error l k = Some x ->
    List.length (List.filter f (AddTaskComponent.remove_nth k l))
    + (if f x then 1 else 0)
    = List.length (List.filter f l).
Proof.
  induction k as [|k IH]; intros [|y l] x H; try discriminate.
  - simpl in H. inversion H; subst.
    unfold AddTaskComponent.remove_nth. simpl.
    destruct (f x); simpl; lia.
  - rewrite remove_nth_cons. simpl in H. specialize (IH l x H).
    simpl. destruct (f y); simpl; lia.
Qed.

Lemma remove_nth_Forall {A : Type} (P : A -> Prop) (k : nat) :
  forall l : list A, Forall P l -> Forall P (AddTaskComponent.remove_nth k l).
Proof.
  induction k as [|k IH]; intros [|y l] H.
  - constructor.
  - inversion H; subst. assumption.
  - constructor.
  - rewrite remove_nth_cons. inversion H; subst. constructor; auto.
Qed.

Section AddTaskRuns.

Variable trim : string -> string.
Variable parseDate : string -> Date.

(** What one event keeps and does: the flag [isSubmitting] tells whether an
    [addTask] callback is pending, the pending drafts are not completed,
    and the store only gets such drafts appended. *)
Lemma add_task_step (c : AddTaskComponent.t) (s : Store)
      (e : AddTaskComponent.Event) :
  AddTaskComponent.adds_pending c
  = (if AddTaskComponent.isSubmitting c then 1 else 0) ->
  Forall (fun timer =>
            match timer with
            | AddTaskComponent.AddTimer task => TaskDraft.completed task = false
            | AddTaskComponent.HideTimer => True
            end)
         (AddTaskComponent.timers c) ->
  let r := AddTaskComponent.step trim parseDate (c, s) e in
  AddTaskComponent.adds_pending (fst r)
  = (if AddTaskComponent.isSubmitting (fst r) then 1 else 0) /\
  Forall (fun timer =>
            match timer with
            | AddTaskComponent.AddTimer task => TaskDraft.completed task = false
            | AddTaskComponent.HideTimer => True
            end)
         (AddTaskComponent.timers (fst r)) /\
  getFilter (snd r) = getFilter s /\
  exists added,
    tasks (snd r) = (tasks s ++ added)%list /\
    Forall (fun task => Task.completed task = false) added /\
    List.length added + AddTaskComponent.adds_pending (fst r)
    <= AddTaskComponent.adds_pending c
       + (match e with
          | AddTaskComponent.Submit true _ => 1
          | _ => 0
          end).
Proof.
  intros Hflag Hdrafts. cbn zeta.
  assert (Hnone : exists added : list Task.t,
             tasks s = (tasks s ++ added)%list /\
             Forall (fun task => Task.completed task = false) added /\
             List.length added + AddTaskComponent.adds_pending c
             <= AddTaskComponent.adds_pending c).
  { exists []. rewrite app_nil_r. repeat split; [constructor | simpl; lia]. }
  destruct e as [valid formValue | | k uuid now]; cbn [AddTaskComponent.step].
  - (* Submit *)
    unfold AddTaskComponent.onSubmit.
    destruct (valid && negb (AddTaskComponent.isSubmitting c)) eqn:G;
      cbn [fst snd].
    + apply andb_true_iff in G. destruct G as [-> Hfree].
      apply negb_true_iff in Hfree. rewrite Hfree in Hflag.
      unfold AddTaskComponent.adds_pending in *.
      cbn [AddTaskComponent.timers AddTaskComponent.isSubmitting].
      rewrite filter_app, length_app. cbn [List.filter List.length].
      repeat split.
      * lia.
      * apply Forall_app. split; [exact Hdrafts |].
        repeat constructor.
      * exists []. rewrite app_nil_r.
        repeat split; [constructor | simpl; lia].
    + repeat split; try assumption.
      destruct Hnone as [added [H1 [H2 H3]]]. exists added.
      repeat split; try assumption. lia.
  - (* Reset *)
    unfold AddTaskComponent.onReset. cbn [fst snd].
    unfold AddTaskComponent.adds_pending in *.
    cbn [AddTaskComponent.timers AddTaskComponent.isSubmitting].
    repeat split; try assumption.
    destruct Hnone as [added [H1 [H2 H3]]]. exists added.
    repeat split; try assumption.
    unfold AddTaskComponent.adds_pending in H3. lia.
  - (* Fire *)
    destruct (nth_error (AddTaskComponent.timers c) k) as [timer|] eqn:Hk.
    2:{ cbn [fst snd]. repeat split; try assumption.
        destruct Hnone as [added [H1 [H2 H3]]]. exists added.
        repeat split; try assumption. lia. }
    pose proof (remove_nth_count
                  (fun timer =>
                     match timer with
                     | AddTaskComponent.AddTimer _ => true
                     | AddTaskComponent.HideTimer => false
                     end) k _ _ Hk) as Hcount.
    pose proof (remove_nth_Forall _ k _ Hdrafts) as Hrest.
    pose proof (proj1 (Forall_forall _ _) Hdrafts timer
                      (nth_error_In _ _ Hk)) as Hthis.
    unfold AddTaskComponent.adds_pending in *.
    destruct timer as [task|];
      cbn [AddTaskComponent.fire fst snd AddTaskComponent.timers
           AddTaskComponent.isSubmitting] in *.
    + rewrite filter_app, length_app. cbn [List.filter List.length].
      assert (Hone : List.length
                       (List.filter
                          (fun timer =>
                             match timer with
                             | AddTaskComponent.AddTimer _ => true
                             | AddTaskComponent.HideTimer => false
                             end)
                          (AddTaskComponent.timers c)) = 1).
      { destruct (AddTaskComponent.isSubmitting c); lia. }
      repeat split.
      * lia.
      * apply Forall_app. split; [exact Hrest | repeat constructor].
      * exists [new_task uuid now task]. repeat split.
        -- repeat constructor. exact Hthis.
        -- simpl. lia.
    + repeat split; try assumption; try lia.
      exists []. unfold tasks. rewrite app_nil_r.
      repeat split; [constructor | simpl; lia].
Qed.

Lemma add_task_run (events : list AddTaskComponent.Event) :
  forall (c : AddTaskComponent.t) (s : Store),
    AddTaskComponent.adds_pending c
    = (if AddTaskComponent.isSubmitting c then 1 else 0) ->
    Forall (fun timer =>
              match timer with
              | AddTaskComponent.AddTimer task =>
                  TaskDraft.completed task = false
              | AddTaskComponent.HideTimer => True
              end)
           (AddTaskComponent.timers c) ->
    let r := AddTaskComponent.run trim parseDate (c, s) events in
    AddTaskComponent.adds_pending (fst r)
    = (if AddTaskComponent.isSubmitting (fst r) then 1 else 0) /\
    getFilter (snd r) = getFilter s /\
    exists added,
      tasks (snd r) = (tasks s ++ added)%list /\
      Forall (fun task => Task.completed task = false) added /\
      List.length added + AddTaskComponent.adds_pending (fst r)
      <= AddTaskComponent.adds_pending c
         + List.length
             (List.filter (fun e =>
                             match e with
                             | AddTaskComponent.Submit true _ => true
                             | _ => false
                             end)
                          events).
Proof.
  induction events as [|e events IH]; intros c s Hflag Hdrafts; cbn zeta.
  - cbn [AddTaskComponent.run fold_left fst snd List.filter List.length].
    split; [exact Hflag | split; [reflexivity |]].
    exists []. rewrite app_nil_r. repeat split; [constructor | simpl; lia].
  - cbn [AddTaskComponent.run fold_left].
    pose proof (add_task_step c s e Hflag Hdrafts) as Hstep. cbn zeta in Hstep.
    destruct (AddTaskComponent.step trim parseDate (c, s) e) as [c1 s1].
    cbn [fst snd] in Hstep.
    destruct Hstep as [Hflag1 [Hdrafts1 [Hfilter1 [added1 [Ht1 [Hc1 Hn1]]]]]].
    specialize (IH c1 s1 Hflag1 Hdrafts1). cbn zeta in IH.
    unfold AddTaskComponent.run in IH.
    destruct IH as [Hflag2 [Hfilter2 [added2 [Ht2 [Hc2 Hn2]]]]].
    split; [exact Hflag2 | split; [congruence |]].
    exists (added1 ++ added2)%list. repeat split.
    + rewrite Ht2, Ht1, app_assoc. reflexivity.
    + apply Forall_app. split; assumption.
    + rewrite length_app. cbn [List.filter].
      destruct e as [[|] formValue | | k uuid now];
        cbn [List.length] in *; lia.
Qed.

(** X22: However submit clicks, reset clicks and timers interleave from the
    start of the component, at most one [addTask] callback is pending at
    any time, and [isSubmitting] is set exactly while one is. *)
Theorem one_submission_in_flight
        (s : Store) (events : list AddTaskComponent.Event) :
  let c' :=
    fst (AddTaskComponent.run trim parseDate
                              (AddTaskComponent.initial, s) events) in
  AddTaskComponent.adds_pending c' <= 1 /\
  (AddTaskComponent.isSubmitting c' = true <->
   AddTaskComponent.adds_pending c' = 1).
Proof.
  cbn zeta.
  destruct (add_task_run events AddTaskComponent.initial s eq_refl
                         (Forall_nil _)) as [Hflag _].
  destruct (AddTaskComponent.isSubmitting _); rewrite Hflag; split;
    try lia; split; congruence.
Qed.

(** X23: Whatever the form goes through from its start, the store only gets
    tasks appended to those it held, each of them not completed, the filter
    stays, and the tasks appended together with the submission in flight
    are no more than the submit clicks made on a valid form: no submission
    reaches the store twice, and an invalid form never reaches it. *)
Theorem form_only_appends_open_tasks
        (s : Store) (events : list AddTaskComponent.Event) :
  let r :=
    AddTaskComponent.run trim parseDate (AddTaskComponent.initial, s) events in
  getFilter (snd r) = getFilter s /\
  exists added,
    tasks (snd r) = (tasks s ++ added)%list /\
    Forall (fun task => Task.completed task = false) added /\
    List.length added + AddTaskComponent.adds_pending (fst r)
    <= List.length
         (List.filter (fun e =>
                         match e with
                         | AddTaskComponent.Submit true _ => true
                         | _ => false
                         end)
                      events).
Proof.
  cbn zeta.
  destruct (add_task_run events AddTaskComponent.initial s eq_refl
                         (Forall_nil _))
    as [_ [Hfilter [added [Ht [Hc Hn]]]]].
  split; [exact Hfilter |]. exists added. repeat split; assumption.
Qed.

End AddTaskRuns.
